(** * Company formation server: validation, templates and dispatch

    A shallow embedding of [app.py]: the [CompanyFormation] model with its
    two field validators, the four template functions, and the
    [/form-company] endpoint, followed by the properties of the
    specification that concern them. *)

From Stdlib Require Import List NArith ZArith Bool String Ascii Lia.
From Stdlib Require Import DecimalString Sorted.
Import ListNotations.

Local Open Scope N_scope.

(** ** Python strings

    A Python [str] is a sequence of Unicode code points. *)

Definition str := list N.

(** A source literal, read as its code points (the literals of the source
    are all ASCII). *)
Definition lit (s : string) : str :=
  List.map N_of_ascii (list_ascii_of_string s).

Fixpoint str_eqb (a b : str) : bool :=
  match a, b with
  | [], [] => true
  | x :: a', y :: b' => (x =? y) && str_eqb a' b'
  | _, _ => false
  end.

(** [x in xs] for a set or tuple of strings. *)
Definition str_in (x : str) (xs : list str) : bool :=
  existsb (str_eqb x) xs.

Definition nl : str := [10].

(** ** The runtime's character tables *)

(** [Py_UNICODE_ISSPACE], which is what [\s] means in a [str] pattern. *)
Definition is_space (c : N) : bool :=
  ((9 <=? c) && (c <=? 13)) || ((28 <=? c) && (c <=? 32))
  || (c =? 133) || (c =? 160) || (c =? 5760)
  || ((8192 <=? c) && (c <=? 8202))
  || (c =? 8232) || (c =? 8233) || (c =? 8239) || (c =? 8287)
  || (c =? 12288).

(** The character class [[a-zA-Z0-9\s,\.\'&]]. *)
Definition name_char (c : N) : bool :=
  ((97 <=? c) && (c <=? 122))
  || ((65 <=? c) && (c <=? 90))
  || ((48 <=? c) && (c <=? 57))
  || is_space c
  || (c =? 44) || (c =? 46) || (c =? 39) || (c =? 38).

(** [$] without [re.MULTILINE]: the end of the string, or just before a
    newline that ends the string. *)
Definition at_dollar (rest : str) : bool :=
  match rest with
  | [] => true
  | [10] => true
  | _ => false
  end.

(** The tail [[...]*$] of the pattern, greedy with backtracking: take one
    more character of the class if that leads to a match, else try [$]
    here. *)
Fixpoint class_star_dollar (v : str) : bool :=
  match v with
  | [] => at_dollar []
  | c :: rest => (name_char c && class_star_dollar rest) || at_dollar v
  end.

(** [re.match(r'^[a-zA-Z0-9\s,\.\'&]+$', v)] as a truth value. *)
Definition re_match_company_name (v : str) : bool :=
  match v with
  | [] => false
  | c :: rest => name_char c && class_star_dollar rest
  end.

(** [str.upper] on one ASCII code point. *)
Definition ascii_upper (c : N) : N :=
  if (97 <=? c) && (c <=? 122) then c - 32 else c.

Definition ascii_lower (c : N) : N :=
  if (65 <=? c) && (c <=? 90) then c + 32 else c.

(** ** The model [CompanyFormation]: its data *)

(** A constructed (validated) instance. [company_type] is kept as the
    string the endpoint compares it with. *)
Record CompanyFormation := {
  company_name : str;
  state_of_formation : str;
  company_type : str;
  incorporator_name : str
}.

(** The [data] dictionary whose items the endpoint passes to the model's
    constructor as keyword arguments: the four keys, each with text, or
    [None] (the key is missing, as a form field that was not sent, or
    holds [None]). *)
Record payload := {
  raw_company_name : option str;
  raw_state_of_formation : option str;
  raw_company_type : option str;
  raw_incorporator_name : option str
}.

Inductive field :=
| f_company_name
| f_state_of_formation
| f_company_type
| f_incorporator_name.

(** Why a field was refused: no value, a [ValueError] of its validator, or
    a value outside the [Literal]. *)
Inductive reason :=
| required
| value_error (msg : str)
| not_permitted (permitted : list str).

(** pydantic's [ValidationError]: every refused field with its reason. *)
Definition ValidationError := list (field * reason).

(** ** The clock

    [datetime.now()] reads the wall clock; each call is a new reading. The
    world holds the readings to come and how many were taken. *)

Inductive month_of_year :=
| January | February | March | April | May | June
| July | August | September | October | November | December.

Record datetime := {
  year : N;
  month : month_of_year;
  day : N
}.

Record world := {
  clock : nat -> datetime;
  reads : nat
}.

Definition M (A : Type) : Type := world -> A * world.

Definition ret {A} (a : A) : M A := fun w => (a, w).

Definition bind {A B} (m : M A) (k : A -> M B) : M B :=
  fun w => let (a, w') := m w in k a w'.

Notation "x <- c1 ;; c2" := (bind c1 (fun x => c2))
  (at level 61, c1 at next level, right associativity).

Definition now : M datetime :=
  fun w => (clock w (reads w), {| clock := clock w; reads := S (reads w) |}).

Definition decimal (n : N) : str :=
  lit (NilEmpty.string_of_uint (N.to_uint n)).

Definition month_name (m : month_of_year) : str :=
  lit match m with
      | January => "January" | February => "February" | March => "March"
      | April => "April" | May => "May" | June => "June"
      | July => "July" | August => "August" | September => "September"
      | October => "October" | November => "November"
      | December => "December"
      end.

(** One directive of [strftime]: [%d] the day as two digits, [%B] the
    month's name, [%Y] the year; the code uses no other. *)
Definition directive (t : datetime) (d : N) : str :=
  if d =? 100 then (if day t <? 10 then 48 :: decimal (day t) else decimal (day t))
  else if d =? 66 then month_name (month t)
  else if d =? 89 then decimal (year t)
  else [37; d].

Fixpoint strftime (t : datetime) (fmt : str) : str :=
  match fmt with
  | [] => []
  | c :: rest =>
      if c =? 37 then
        match rest with
        | d :: rest' => directive t d ++ strftime t rest'
        | [] => [c]
        end
      else c :: strftime t rest
  end.

(** ** The PDF canvas

    A document is the calls made on its [canvas.Canvas], in order. *)

Inductive canvas_call :=
| Canvas (pagesize : Z * Z)
| setFont (name : str) (size : Z)
| drawCentredString (x y : Z) (text : str)
| drawString (x y : Z) (text : str)
| save.

Definition pdf := list canvas_call.

Definition letter : Z * Z := (612, 792)%Z.

Local Open Scope Z_scope.

(** ** The four templates *)

Definition generate_delaware_articles (company_data : CompanyFormation)
  : M (pdf * str) :=
  let c :=
    [ Canvas letter;
      setFont (lit "Helvetica-Bold") 16;
      drawCentredString 300 750 (lit "CERTIFICATE OF INCORPORATION");
      setFont (lit "Helvetica") 12;
      drawString 50 700 (lit "FIRST: The name of this corporation is:");
      drawString 70 680 (company_name company_data);
      drawString 50 630 (lit "SECOND: Its registered office in the State of Delaware is located at:");
      drawString 70 610 (lit "251 Little Falls Drive, Wilmington, New Castle County, Delaware 19808");
      drawString 50 560 (lit "THIRD: The purpose of the corporation is to engage in any lawful act or activity for");
      drawString 50 540 (lit "which corporations may be organized under the General Corporation Law of Delaware.");
      drawString 50 490 (lit "FOURTH: The total number of shares of stock which this corporation is authorized");
      drawString 50 470 (lit "to issue is 1,000 shares of Common Stock with $0.01 par value per share.");
      drawString 50 200 (lit "IN WITNESS WHEREOF, the undersigned, being the incorporator hereinbefore named,") ] in
  t1 <- now ;;
  let c := c ++
    [ drawString 50 180 (lit "has executed this Certificate of Incorporation this "
                         ++ strftime t1 (lit "%d") ++ lit " day of") ] in
  t2 <- now ;;
  let c := c ++
    [ drawString 50 160 (strftime t2 (lit "%B, %Y") ++ lit ".");
      drawString 50 100 (lit "Incorporator:");
      drawString 70 80 (incorporator_name company_data);
      save ] in
  t3 <- now ;;
  let today := strftime t3 (lit "%d %B, %Y") in
  let text_content :=
    lit "CERTIFICATE OF INCORPORATION" ++ nl
    ++ nl
    ++ lit "FIRST: The name of this corporation is:" ++ nl
    ++ company_name company_data ++ nl
    ++ nl
    ++ lit "SECOND: Its registered office in the State of Delaware is located at:" ++ nl
    ++ lit "251 Little Falls Drive, Wilmington, New Castle County, Delaware 19808" ++ nl
    ++ nl
    ++ lit "THIRD: The purpose of the corporation is to engage in any lawful act or activity for" ++ nl
    ++ lit "which corporations may be organized under the General Corporation Law of Delaware." ++ nl
    ++ nl
    ++ lit "FOURTH: The total number of shares of stock which this corporation is authorized" ++ nl
    ++ lit "to issue is 1,000 shares of Common Stock with $0.01 par value per share." ++ nl
    ++ nl
    ++ lit "IN WITNESS WHEREOF, the undersigned, being the incorporator hereinbefore named," ++ nl
    ++ lit "has executed this Certificate of Incorporation this " ++ today ++ lit "." ++ nl
    ++ nl
    ++ lit "Incorporator:" ++ nl
    ++ incorporator_name company_data in
  ret (c, text_content).

Definition generate_delaware_llc_certificate (company_data : CompanyFormation)
  : M (pdf * str) :=
  let c :=
    [ Canvas letter;
      setFont (lit "Helvetica-Bold") 16;
      drawCentredString 300 750 (lit "CERTIFICATE OF FORMATION");
      setFont (lit "Helvetica") 12;
      drawString 50 700 (lit "FIRST: The name of the limited liability company is:");
      drawString 70 680 (company_name company_data);
      drawString 50 630 (lit "SECOND: The address of its registered office in the State of Delaware is:");
      drawString 70 610 (lit "251 Little Falls Drive, Wilmington, New Castle County, Delaware 19808");
      drawString 50 560 (lit "THIRD: The name and address of its registered agent in the State of Delaware is:");
      drawString 70 540 (lit "Corporation Service Company");
      drawString 70 520 (lit "251 Little Falls Drive");
      drawString 70 500 (lit "Wilmington, DE 19808");
      drawString 50 450 (lit "FOURTH: The limited liability company shall be managed by its members.") ] in
  t1 <- now ;;
  let c := c ++
    [ drawString 50 200 (lit "IN WITNESS WHEREOF, the undersigned has executed this Certificate of Formation this "
                         ++ strftime t1 (lit "%d") ++ lit " day of") ] in
  t2 <- now ;;
  let c := c ++
    [ drawString 50 180 (strftime t2 (lit "%B, %Y") ++ lit ".");
      drawString 50 100 (lit "Authorized Person:");
      drawString 70 80 (incorporator_name company_data);
      save ] in
  t3 <- now ;;
  let today := strftime t3 (lit "%d %B, %Y") in
  let text_content :=
    lit "CERTIFICATE OF FORMATION" ++ nl
    ++ nl
    ++ lit "FIRST: The name of the limited liability company is:" ++ nl
    ++ company_name company_data ++ nl
    ++ nl
    ++ lit "SECOND: The address of its registered office in the State of Delaware is:" ++ nl
    ++ lit "251 Little Falls Drive, Wilmington, New Castle County, Delaware 19808" ++ nl
    ++ nl
    ++ lit "THIRD: The name and address of its registered agent in the State of Delaware is:" ++ nl
    ++ lit "Corporation Service Company" ++ nl
    ++ lit "251 Little Falls Drive" ++ nl
    ++ lit "Wilmington, DE 19808" ++ nl
    ++ nl
    ++ lit "FOURTH: The limited liability company shall be managed by its members." ++ nl
    ++ nl
    ++ lit "IN WITNESS WHEREOF, the undersigned has executed this Certificate of Formation this "
    ++ today ++ lit "." ++ nl
    ++ nl
    ++ lit "Authorized Person:" ++ nl
    ++ incorporator_name company_data in
  ret (c, text_content).

Definition generate_california_articles (company_data : CompanyFormation)
  : M pdf :=
  let c :=
    [ Canvas letter;
      setFont (lit "Helvetica-Bold") 16;
      drawCentredString 300 750 (lit "ARTICLES OF INCORPORATION");
      setFont (lit "Helvetica") 12;
      drawString 50 700 (lit "ARTICLE I: The name of this corporation is:");
      drawString 70 680 (company_name company_data);
      drawString 50 630 (lit "ARTICLE II: The purpose of the corporation is to engage in any lawful act or activity");
      drawString 50 610 (lit "for which a corporation may be organized under the General Corporation Law of California.");
      drawString 50 560 (lit "ARTICLE III: The name and address in California of the corporation's initial agent for service of process is:");
      drawString 70 540 (lit "California Registered Agent, Inc.");
      drawString 70 520 (lit "123 Main Street");
      drawString 70 500 (lit "Los Angeles, CA 90001");
      drawString 50 200 (lit "IN WITNESS WHEREOF, the undersigned, being the incorporator hereinbefore named,") ] in
  t1 <- now ;;
  let c := c ++
    [ drawString 50 180 (lit "has executed these Articles of Incorporation this "
                         ++ strftime t1 (lit "%d") ++ lit " day of") ] in
  t2 <- now ;;
  let c := c ++
    [ drawString 50 160 (strftime t2 (lit "%B, %Y") ++ lit ".");
      drawString 50 100 (lit "Incorporator:");
      drawString 70 80 (incorporator_name company_data);
      save ] in
  ret c.

Definition generate_california_llc_certificate (company_data : CompanyFormation)
  : M pdf :=
  let c :=
    [ Canvas letter;
      setFont (lit "Helvetica-Bold") 16;
      drawCentredString 300 750 (lit "ARTICLES OF ORGANIZATION");
      setFont (lit "Helvetica") 12;
      drawString 50 700 (lit "ARTICLE I: The name of the limited liability company is:");
      drawString 70 680 (company_name company_data);
      drawString 50 630 (lit "ARTICLE II: The purpose of the limited liability company is to engage in any lawful business.");
      drawString 50 560 (lit "ARTICLE III: The name and address in California of the LLC's initial agent for service of process is:");
      drawString 70 540 (lit "California Registered Agent, Inc.");
      drawString 70 520 (lit "123 Main Street");
      drawString 70 500 (lit "Los Angeles, CA 90001") ] in
  t1 <- now ;;
  let c := c ++
    [ drawString 50 200 (lit "IN WITNESS WHEREOF, the undersigned has executed these Articles of Organization this "
                         ++ strftime t1 (lit "%d") ++ lit " day of") ] in
  t2 <- now ;;
  let c := c ++
    [ drawString 50 180 (strftime t2 (lit "%B, %Y") ++ lit ".");
      drawString 50 100 (lit "Authorized Person:");
      drawString 70 80 (incorporator_name company_data);
      save ] in
  ret c.

Local Close Scope Z_scope.

(** ** Responses of the endpoint *)

(** What [zf.writestr] is given. *)
Inductive file_data :=
| pdf_bytes (buffer : pdf)
| text_bytes (content : str).

(** A zip archive: its entries in the order written. *)
Definition archive := list (str * file_data).

(** What the libraries raise inside the [try] once the templates have
    run: [str.encode] on text that holds a surrogate, [struct.pack] on a
    file name of more than 65535 bytes, and the response headers on a
    value that holds a line break. *)
Inductive raised :=
| UnicodeEncodeError
| struct_error
| ValueError.

(** The value of the ["error"] key: a literal of the source, or [str(e)]
    of the exception caught, the model's or a library's. *)
Inductive error_text :=
| message (s : str)
| str_of (e : ValidationError)
| str_of_raised (x : raised).

Inductive response :=
| send_file (body : archive) (mimetype : str) (download_name : str)
| jsonify_error (error : error_text) (status : Z).

(** ** The libraries behind the archive *)

Definition is_surrogate (c : N) : bool := (55296 <=? c) && (c <=? 57343).

(** [s.encode("utf-8")] does not raise: no code point is a surrogate. *)
Definition encodable (s : str) : bool :=
  forallb (fun c => negb (is_surrogate c)) s.

(** The number of bytes of [s.encode("utf-8")]. *)
Definition utf8_size (c : N) : N :=
  if c <? 128 then 1 else if c <? 2048 then 2 else if c <? 65536 then 3 else 4.

Definition utf8_length (s : str) : N :=
  fold_right (fun c n => utf8_size c + n) 0 s.

Definition is_line_break (c : N) : bool := (c =? 10) || (c =? 13).

(** [zf.writestr(arcname, data)]: text is encoded first; then the name
    is, for the entry's header, which holds the length of the name in
    sixteen bits. *)
Definition ZipFile_writestr (zf : archive) (arcname : str) (data : file_data)
  : sum raised archive :=
  if match data with
     | text_bytes content => negb (encodable content)
     | pdf_bytes _ => false
     end
  then inl UnicodeEncodeError
  else if negb (encodable arcname) then inl UnicodeEncodeError
  else if 65535 <? utf8_length arcname then inl struct_error
  else inr (zf ++ [(arcname, data)]).

(** Flask's [send_file(..., as_attachment=True, download_name=...)]: the
    name goes into the [Content-Disposition] header, whose value may hold
    no line break. *)
Definition flask_send_file (body : archive) (mimetype download_name : str)
  : sum raised response :=
  if negb (encodable download_name) then inl UnicodeEncodeError
  else if existsb is_line_break download_name then inl ValueError
  else inr (send_file body mimetype download_name).

(** A stand-in for the interpreter's table when the input is all ASCII
    and the table is never consulted. *)
Definition unconsulted (c : N) : str := [c].

Section App.

(** The interpreter's full upper-case mapping of the code points from 128
    on (one code point may map to several). It is a table of the Unicode
    database and stays a parameter; nothing below depends on its values. *)
Variable unicode_upper : N -> str.

Definition upper_char (c : N) : str :=
  if c <? 128 then [ascii_upper c] else unicode_upper c.

(** [v.upper()] *)
Definition upper (v : str) : str := flat_map upper_char v.

(** ** The model [CompanyFormation]: its validators and constructor *)

(** A validator returns its value or raises [ValueError(msg)]. *)
Definition checked := sum str str.

Definition company_name_message : str :=
  lit "Company name can only contain alphanumeric characters, spaces, commas, periods, apostrophes, and ampersands".

Definition validate_company_name (v : str) : checked :=
  if negb (re_match_company_name v) then inl company_name_message
  else inr v.

Definition states : list str :=
  List.map lit
    [ "AL"; "AK"; "AZ"; "AR"; "CA"; "CO"; "CT"; "DE"; "FL"; "GA";
      "HI"; "ID"; "IL"; "IN"; "IA"; "KS"; "KY"; "LA"; "ME"; "MD";
      "MA"; "MI"; "MN"; "MS"; "MO"; "MT"; "NE"; "NV"; "NH"; "NJ";
      "NM"; "NY"; "NC"; "ND"; "OH"; "OK"; "OR"; "PA"; "RI"; "SC";
      "SD"; "TN"; "TX"; "UT"; "VT"; "VA"; "WA"; "WV"; "WI"; "WY";
      "DC"; "PR"; "GU"; "VI"; "AS"; "MP" ]%string.

Definition state_message : str := lit "Invalid US state or territory".

Definition validate_state (v : str) : checked :=
  if negb (str_in (upper v) states) then inl state_message
  else inr (upper v).

Definition permitted_types : list str := [lit "corporation"; lit "LLC"].

(** A required [str] field with its validator. *)
Definition str_field (f : field) (raw : option str) (validator : str -> checked)
  : sum (field * reason) str :=
  match raw with
  | None => inl (f, required)
  | Some v =>
      match validator v with
      | inl msg => inl (f, value_error msg)
      | inr v' => inr v'
      end
  end.

(** A required [Literal[...]] field. *)
Definition literal_field (f : field) (raw : option str) (permitted : list str)
  : sum (field * reason) str :=
  match raw with
  | None => inl (f, required)
  | Some v => if str_in v permitted then inr v else inl (f, not_permitted permitted)
  end.

Definition errors_of {A} (r : sum (field * reason) A) : ValidationError :=
  match r with
  | inl e => [e]
  | inr _ => []
  end.

(** Construction of the model from the payload: every field is checked,
    in the order declared, and the refusals are raised together. *)
Definition CompanyFormation_init (data : payload)
  : sum ValidationError CompanyFormation :=
  let r1 := str_field f_company_name (raw_company_name data) validate_company_name in
  let r2 := str_field f_state_of_formation (raw_state_of_formation data) validate_state in
  let r3 := literal_field f_company_type (raw_company_type data) permitted_types in
  let r4 := str_field f_incorporator_name (raw_incorporator_name data) inr in
  match r1, r2, r3, r4 with
  | inr n, inr s, inr t, inr i =>
      inr {| company_name := n; state_of_formation := s;
             company_type := t; incorporator_name := i |}
  | _, _, _, _ => inl (errors_of r1 ++ errors_of r2 ++ errors_of r3 ++ errors_of r4)
  end.

(** ** The endpoint [POST /form-company] *)

Definition unsupported_type_message : str := lit "Unsupported company type".

Definition unsupported_state_message : str :=
  lit "Only Delaware and California entities are supported at this time".

(** The two [zf.writestr] and the [send_file] that follow the templates:
    the first of them to raise ends the [try]. *)
Definition send_archive (company_data : CompanyFormation)
  (pdf_buffer : pdf) (text_content : str) : sum raised response :=
  match ZipFile_writestr []
          (company_name company_data ++ lit "_certificate.pdf")
          (pdf_bytes pdf_buffer) with
  | inl x => inl x
  | inr zf =>
      match ZipFile_writestr zf
              (company_name company_data ++ lit "_certificate.txt")
              (text_bytes text_content) with
      | inl x => inl x
      | inr zf =>
          flask_send_file zf (lit "application/zip")
            (company_name company_data ++ lit "_formation_documents.zip")
      end
  end.

(** The body of the [try] once the model is constructed: the response
    returned, or what a library raised. An early [return] of the inner
    branch is the [inl] of [generated]. The [send_file] of the document
    alone that follows the outer [if] in the source comes after a
    [return] on every path and never runs. *)
Definition dispatch (company_data : CompanyFormation)
  : M (sum raised response) :=
  if str_eqb (state_of_formation company_data) (lit "DE") then
    generated <-
      (if str_eqb (company_type company_data) (lit "corporation") then
         r <- generate_delaware_articles company_data ;; ret (inr r)
       else if str_eqb (company_type company_data) (lit "LLC") then
         r <- generate_delaware_llc_certificate company_data ;; ret (inr r)
       else ret (inl (jsonify_error (message unsupported_type_message) 400))) ;;
    match generated with
    | inl early => ret (inr early)
    | inr (pdf_buffer, text_content) =>
        ret (send_archive company_data pdf_buffer text_content)
    end
  else
    ret (inr (jsonify_error (message unsupported_state_message) 400)).

(** [except Exception as e]: whatever is raised inside the [try], the
    refusal of the constructor or an exception of a library after the
    templates have run, becomes a 400 response carrying [str(e)]. *)
Definition form_company (data : payload) : M response :=
  match CompanyFormation_init data with
  | inl e => ret (jsonify_error (str_of e) 400)
  | inr company_data =>
      outcome <- dispatch company_data ;;
      match outcome with
      | inl x => ret (jsonify_error (str_of_raised x) 400)
      | inr sent => ret sent
      end
  end.

(** ** Vocabulary of the properties *)

Definition is_upper_letter (c : N) : bool := (65 <=? c) && (c <=? 90).

(** [v] spells [c] in some mix of cases: letter by letter, the letter of
    [c] or its lower-case form. *)
Definition spells (v c : str) : Prop :=
  Forall2 (fun x y => x = y \/ x = ascii_lower y) v c.

(** The model read back as a payload, every key present. *)
Definition as_payload (d : CompanyFormation) : payload :=
  {| raw_company_name := Some (company_name d);
     raw_state_of_formation := Some (state_of_formation d);
     raw_company_type := Some (company_type d);
     raw_incorporator_name := Some (incorporator_name d) |}.

(** The payloads of [form_company_schema]. *)
Definition example_payload (name state type incorporator : string) : payload :=
  {| raw_company_name := Some (lit name);
     raw_state_of_formation := Some (lit state);
     raw_company_type := Some (lit type);
     raw_incorporator_name := Some (lit incorporator) |}.

Definition acme : payload :=
  example_payload "Acme Corp, Inc." "DE" "corporation" "John Smith".


Definition tech_innovators : payload :=
  example_payload "Tech Innovators Co." "CA" "corporation" "Michael Johnson".

Definition california_dreaming : payload :=
  example_payload "California Dreaming, LLC" "CA" "LLC" "Emily Chen".

(** Variations of the first of them. *)
Definition acme_bang : payload :=
  example_payload "Acme!" "DE" "corporation" "John Smith".

Definition acme_in_texas : payload :=
  example_payload "Acme Corp, Inc." "TX" "corporation" "John Smith".

Definition acme_partnership : payload :=
  example_payload "Acme Corp, Inc." "DE" "partnership" "John Smith".

(** The causes of a refusal: a key without text, a name that does not
    match the pattern, a state that is no known code, a type that is
    neither literal. *)
Definition refused (data : payload) : Prop :=
  raw_company_name data = None
  \/ raw_state_of_formation data = None
  \/ raw_company_type data = None
  \/ raw_incorporator_name data = None
  \/ (exists v, raw_company_name data = Some v /\ re_match_company_name v = false)
  \/ (exists v, raw_state_of_formation data = Some v /\ ~ In (upper v) states)
  \/ (exists v, raw_company_type data = Some v /\ ~ In v permitted_types).

(** The title of a document: the text of its first centred string. *)
Fixpoint title_of (p : pdf) : option str :=
  match p with
  | [] => None
  | drawCentredString _ _ text :: _ => Some text
  | _ :: rest => title_of rest
  end.

(** The first line of a text. *)
Fixpoint first_line (s : str) : str :=
  match s with
  | [] => []
  | c :: rest => if c =? 10 then [] else c :: first_line rest
  end.

(** [s.startswith(prefix)] *)
Fixpoint starts_with (s prefix : str) {struct prefix} : bool :=
  match prefix, s with
  | [], _ => true
  | p :: prefix', c :: s' => (c =? p) && starts_with s' prefix'
  | _ :: _, [] => false
  end.

(** [sub in s] *)
Fixpoint contains (s sub : str) : bool :=
  starts_with s sub
  || match s with
     | [] => false
     | _ :: s' => contains s' sub
     end.

(** The model can be delivered: the name of each entry of the archive
    fits the sixteen bits of its length, the incorporator's name can be
    encoded, and the company's name holds no line break. *)
Definition deliverable (d : CompanyFormation) : bool :=
  (utf8_length (company_name d) + 16 <=? 65535)
  && encodable (incorporator_name d)
  && negb (existsb is_line_break (company_name d)).

(** The document and the text that the endpoint makes for a model: those
    of the template of its type. *)
Definition artifacts (d : CompanyFormation) (w : world) : pdf * str :=
  if str_eqb (company_type d) (lit "corporation")
  then fst (generate_delaware_articles d w)
  else fst (generate_delaware_llc_certificate d w).

(** Acme with a line break at the end of its name. *)
Definition acme_newline : payload :=
  {| raw_company_name := Some (lit "Acme" ++ nl);
     raw_state_of_formation := Some (lit "DE");
     raw_company_type := Some (lit "corporation");
     raw_incorporator_name := Some (lit "John Smith") |}.

(** Acme with a lone surrogate for incorporator, and a company whose
    name is 65520 letters long. *)
Definition acme_surrogate : payload :=
  {| raw_company_name := Some (lit "Acme Corp, Inc.");
     raw_state_of_formation := Some (lit "DE");
     raw_company_type := Some (lit "corporation");
     raw_incorporator_name := Some [55296] |}.

Definition long_name : payload :=
  {| raw_company_name := Some (List.repeat 65 (N.to_nat 65520));
     raw_state_of_formation := Some (lit "DE");
     raw_company_type := Some (lit "corporation");
     raw_incorporator_name := Some (lit "John Smith") |}.

(** The response that carries the archive of a model's two artifacts. *)
Definition archive_response (d : CompanyFormation) (artifacts : pdf * str)
  : response :=
  send_file
    [ (company_name d ++ lit "_certificate.pdf", pdf_bytes (fst artifacts));
      (company_name d ++ lit "_certificate.txt", text_bytes (snd artifacts)) ]
    (lit "application/zip")
    (company_name d ++ lit "_formation_documents.zip").

Definition third_of_november : datetime :=
  {| year := 2026; month := November; day := 3 |}.

(** A world whose clock stands still at [t]. *)
Definition frozen (t : datetime) : world :=
  {| clock := fun _ => t; reads := 0 |}.

(** The artifacts of [f] in [w] carry one date: they are what [f] returns
    when every reading of the clock is some one [t]. For a template that
    returns a document and a text this says that the day, month and year
    of the one are those of the other. *)
Definition one_date {A} (f : CompanyFormation -> M A)
  (d : CompanyFormation) (w : world) : Prop :=
  exists t, fst (f d w) = fst (f d (frozen t)).

(** A request served across midnight: the first reading is taken on
    31 December 2024, the later ones on 1 January 2025. *)
Definition across_midnight : world :=
  {| clock := fun n =>
       match n with
       | O => {| year := 2024; month := December; day := 31 |}
       | _ => {| year := 2025; month := January; day := 1 |}
       end;
     reads := 0 |}.

Definition acme_model : CompanyFormation :=
  {| company_name := lit "Acme Corp, Inc.";
     state_of_formation := lit "DE";
     company_type := lit "corporation";
     incorporator_name := lit "John Smith" |}.

Definition acme_in_texas_model : CompanyFormation :=
  {| company_name := lit "Acme Corp, Inc.";
     state_of_formation := lit "TX";
     company_type := lit "corporation";
     incorporator_name := lit "John Smith" |}.


(** The three readings a Delaware template takes all show [t]. *)
Definition readings_show (w : world) (t : datetime) : Prop :=
  clock w (reads w) = t
  /\ clock w (S (reads w)) = t
  /\ clock w (S (S (reads w))) = t.

(** ** The request, and the other two routes *)

(** [request.form]: the fields sent, in order; a key may come more than
    once, and [get] gives the first of its values, or [None]. *)
Definition MultiDict := list (str * str).

Fixpoint MultiDict_get (key : str) (m : MultiDict) : option str :=
  match m with
  | [] => None
  | (k, v) :: rest => if str_eqb k key then Some v else MultiDict_get key rest
  end.

(** What the endpoint reads of a request: whether its body is JSON, the
    four keys of that JSON, and the form fields. *)
Record request := {
  is_json : bool;
  get_json : payload;
  form : MultiDict
}.

(** The [data] of the endpoint: the JSON as it is, or the four fields
    fetched from the form. *)
Definition request_data (r : request) : payload :=
  if is_json r then get_json r
  else {| raw_company_name := MultiDict_get (lit "company_name") (form r);
          raw_state_of_formation := MultiDict_get (lit "state_of_formation") (form r);
          raw_company_type := MultiDict_get (lit "company_type") (form r);
          raw_incorporator_name := MultiDict_get (lit "incorporator_name") (form r) |}.

(** The endpoint from the request on. *)
Definition form_company_view (r : request) : M response :=
  form_company (request_data r).


(** The [states] list of [company_form], the page of [GET /]. *)
Definition company_form_states : list str :=
  List.map lit
    [ "AL"; "AK"; "AZ"; "AR"; "CA"; "CO"; "CT"; "DE"; "FL"; "GA";
      "HI"; "ID"; "IL"; "IN"; "IA"; "KS"; "KY"; "LA"; "ME"; "MD";
      "MA"; "MI"; "MN"; "MS"; "MO"; "MT"; "NE"; "NV"; "NH"; "NJ";
      "NM"; "NY"; "NC"; "ND"; "OH"; "OK"; "OR"; "PA"; "RI"; "SC";
      "SD"; "TN"; "TX"; "UT"; "VT"; "VA"; "WA"; "WV"; "WI"; "WY";
      "DC"; "PR"; "GU"; "VI"; "AS"; "MP" ]%string.

(** ** Further vocabulary *)

(** The value a payload holds for a field, and the key of the field. *)
Definition raw_field (data : payload) (f : field) : option str :=
  match f with
  | f_company_name => raw_company_name data
  | f_state_of_formation => raw_state_of_formation data
  | f_company_type => raw_company_type data
  | f_incorporator_name => raw_incorporator_name data
  end.

Definition field_key (f : field) : str :=
  match f with
  | f_company_name => lit "company_name"
  | f_state_of_formation => lit "state_of_formation"
  | f_company_type => lit "company_type"
  | f_incorporator_name => lit "incorporator_name"
  end.

(** The place of a field in the declaration of the model. *)
Definition field_index (f : field) : nat :=
  match f with
  | f_company_name => 0
  | f_state_of_formation => 1
  | f_company_type => 2
  | f_incorporator_name => 3
  end.

(** What the model has against the value of a field. *)
Definition field_refused (data : payload) (f : field) : Prop :=
  raw_field data f = None
  \/ match f with
     | f_company_name =>
         exists v, raw_company_name data = Some v
                   /\ re_match_company_name v = false
     | f_state_of_formation =>
         exists v, raw_state_of_formation data = Some v
                   /\ ~ In (upper v) states
     | f_company_type =>
         exists v, raw_company_type data = Some v /\ ~ In v permitted_types
     | f_incorporator_name => False
     end.

(** The payload with another spelling of the state. *)
Definition with_state (data : payload) (s : str) : payload :=
  {| raw_company_name := raw_company_name data;
     raw_state_of_formation := Some s;
     raw_company_type := raw_company_type data;
     raw_incorporator_name := raw_incorporator_name data |}.

(** The world after [n] more readings of the clock. *)
Definition advance (n : nat) (w : world) : world :=
  {| clock := clock w; reads := n + reads w |}.

(** The strings a document draws, each with where it is drawn and in
    which font; [font] is the font set last, if any was. *)
Fixpoint typeset (font : option (str * Z)) (p : pdf)
  : list (option (str * Z) * (Z * Z) * str) :=
  match p with
  | [] => []
  | setFont name size :: rest => typeset (Some (name, size)) rest
  | drawCentredString x y text :: rest =>
      (font, (x, y), text) :: typeset font rest
  | drawString x y text :: rest =>
      (font, (x, y), text) :: typeset font rest
  | _ :: rest => typeset font rest
  end.

(** The heights at which the document draws, top of the list first. *)
Definition heights (p : pdf) : list Z :=
  List.map (fun line => snd (snd (fst line))) (typeset None p).

(** The page in use: the size given when the canvas was made. *)
Definition page_of (p : pdf) : option (Z * Z) :=
  match p with
  | Canvas pagesize :: _ => Some pagesize
  | _ => None
  end.

(** A document's lines are well laid out on the page: it is a US Letter
    page, closed by [save]; the first string is set in Helvetica-Bold 16
    and every other in Helvetica 12; each string starts inside the page;
    and the strings go strictly down the page, no two at one height. *)
Definition well_laid_out (doc : pdf) : Prop :=
  page_of doc = Some (612, 792)%Z
  /\ last doc (Canvas letter) = save
  /\ match typeset None doc with
     | [] => False
     | (font, _, _) :: body =>
         font = Some (lit "Helvetica-Bold", 16%Z)
         /\ Forall (fun line => fst (fst line) = Some (lit "Helvetica", 12%Z))
              body
     end
  /\ Forall (fun line =>
               let '(x, y) := snd (fst line) in
               (0 < x < 612 /\ 0 < y < 792)%Z)
       (typeset None doc)
  /\ StronglySorted Z.gt (heights doc).

(** The four templates, as functions to a document. *)
Definition templates : list (CompanyFormation -> M pdf) :=
  [ (fun d => r <- generate_delaware_articles d ;; ret (fst r));
    (fun d => r <- generate_delaware_llc_certificate d ;; ret (fst r));
    generate_california_articles;
    generate_california_llc_certificate ].

(** The first example as the form of the page would send it, and the
    same without the incorporator's field. *)
Definition acme_form : MultiDict :=
  [ (lit "company_name", lit "Acme Corp, Inc.");
    (lit "state_of_formation", lit "DE");
    (lit "company_type", lit "corporation");
    (lit "incorporator_name", lit "John Smith") ].

Definition acme_form_request : request :=
  {| is_json := false;
     get_json := {| raw_company_name := None; raw_state_of_formation := None;
                    raw_company_type := None; raw_incorporator_name := None |};
     form := acme_form |}.

Definition acme_form_request_without_incorporator : request :=
  {| is_json := false;
     get_json := get_json acme_form_request;
     form := removelast acme_form |}.

(** A table that knows one ligature: U+FB02 upper-cases to [FL]. *)
Definition ligature_table (c : N) : str :=
  if c =? 64258 then lit "FL" else [c].

(** * Properties *)

(** ** Strings and the pattern *)

Lemma str_eqb_eq (a b : str) : str_eqb a b = true <-> a = b.
Proof using.
  revert b; induction a as [|x a IH]; intros [|y b]; simpl;
    try (split; [discriminate | discriminate]); try tauto.
  rewrite andb_true_iff, N.eqb_eq, IH.
  split; [intros [-> ->]; reflexivity | intros H; injection H; auto].
Qed.

Lemma str_eqb_refl (a : str) : str_eqb a a = true.
Proof using. apply str_eqb_eq; reflexivity. Qed.

Lemma str_in_In (x : str) (xs : list str) : str_in x xs = true <-> In x xs.
Proof using.
  unfold str_in; rewrite existsb_exists; split.
  - intros [y [Hy E]]; apply str_eqb_eq in E; subst; assumption.
  - intros H; exists x; split; [assumption | apply str_eqb_refl].
Qed.

Lemma newline_in_class : name_char 10 = true.
Proof using. reflexivity. Qed.

(** The [$] that may sit before a final newline adds nothing here: the
    newline is itself a character of the class. *)
Lemma class_star_dollar_forallb (v : str) :
  class_star_dollar v = forallb name_char v.
Proof using.
  induction v as [|c rest IH]; [reflexivity|].
  cbn [class_star_dollar forallb]; rewrite IH.
  destruct (at_dollar (c :: rest)) eqn:E; [|apply orb_false_r].
  rewrite orb_true_r; symmetry.
  destruct rest as [|c' rest'].
  - destruct c as [|p]; [discriminate|].
    assert (Hc : N.pos p = 10).
    { destruct (N.eq_dec (N.pos p) 10) as [e|n]; [exact e|].
      exfalso; revert E; clear -n; simpl.
      do 4 (destruct p as [p|p|]; try discriminate); congruence. }
    rewrite Hc; reflexivity.
  - exfalso; revert E; clear; simpl.
    destruct c as [|p]; [discriminate|].
    do 4 (destruct p as [p|p|]; try discriminate).
Qed.

Lemma re_match_company_name_spec (v : str) :
  re_match_company_name v = true
  <-> v <> [] /\ Forall (fun c => name_char c = true) v.
Proof using.
  rewrite Forall_forall, <- forallb_forall.
  destruct v as [|c rest]; simpl.
  - split; [discriminate | intros [H _]; contradiction].
  - rewrite class_star_dollar_forallb; split;
      [split; [discriminate|assumption] | intros [_ H]; exact H].
Qed.

(** C4. [validate_company_name] accepts a string, returning it as it is,
    exactly when the string is not empty and each of its characters is in
    the class [[A-Za-z0-9\s,.'&]]; a string with a character outside the
    class is refused, and so is the empty string. ["Acme!"] is refused and
    ["Acme, Inc."] accepted. *)
Theorem company_name_accepted_iff_in_class :
  (forall v, validate_company_name v = inr v
             <-> v <> [] /\ Forall (fun c => name_char c = true) v)
  /\ (forall v r, validate_company_name v = inr r -> r = v)
  /\ (forall v c, In c v -> name_char c = false ->
                  validate_company_name v = inl company_name_message)
  /\ validate_company_name [] = inl company_name_message
  /\ validate_company_name (lit "Acme!") = inl company_name_message
  /\ validate_company_name (lit "Acme, Inc.") = inr (lit "Acme, Inc.").
Proof using.
  assert (A : forall v, validate_company_name v = inr v
                        <-> re_match_company_name v = true).
  { intros v; unfold validate_company_name.
    destruct (re_match_company_name v); simpl; split; congruence. }
  split; [|split; [|split; [|repeat split]]].
  - intros v; rewrite A; apply re_match_company_name_spec.
  - intros v r; unfold validate_company_name.
    destruct (re_match_company_name v); simpl; congruence.
  - intros v c Hin Hc; unfold validate_company_name.
    destruct (re_match_company_name v) eqn:E; [|reflexivity].
    apply re_match_company_name_spec in E; destruct E as [_ F].
    rewrite Forall_forall in F; specialize (F c Hin); congruence.
Qed.

(** ** States *)

Lemma states_are_upper_letters (c : str) :
  In c states -> forallb is_upper_letter c = true.
Proof.
  assert (H : forallb (forallb is_upper_letter) states = true) by reflexivity.
  rewrite forallb_forall in H; apply H.
Qed.

Lemma upper_char_upper_letter (y : N) :
  is_upper_letter y = true -> upper_char y = [y].
Proof.
  unfold is_upper_letter, upper_char, ascii_upper; intros H.
  apply andb_true_iff in H; destruct H as [H1 H2].
  apply N.leb_le in H1, H2.
  replace (y <? 128) with true by (symmetry; apply N.ltb_lt; lia).
  replace ((97 <=? y) && (y <=? 122)) with false; [reflexivity|].
  symmetry; apply andb_false_iff; left; apply N.leb_gt; lia.
Qed.

Lemma upper_char_lower_letter (y : N) :
  is_upper_letter y = true -> upper_char (ascii_lower y) = [y].
Proof.
  unfold is_upper_letter, upper_char, ascii_upper, ascii_lower; intros H.
  rewrite H.
  apply andb_true_iff in H; destruct H as [H1 H2].
  apply N.leb_le in H1, H2.
  replace (y + 32 <? 128) with true by (symmetry; apply N.ltb_lt; lia).
  replace ((97 <=? y + 32) && (y + 32 <=? 122)) with true.
  - f_equal; lia.
  - symmetry; apply andb_true_iff; split; apply N.leb_le; lia.
Qed.

Lemma upper_of_spelling (v c : str) :
  forallb is_upper_letter c = true -> spells v c -> upper v = c.
Proof.
  intros Hc Hs; induction Hs as [|x y v c Hxy Hs IH]; [reflexivity|].
  simpl in Hc; apply andb_true_iff in Hc; destruct Hc as [Hy Hc].
  unfold upper; simpl; fold (upper v); rewrite (IH Hc).
  destruct Hxy as [-> | ->].
  - rewrite (upper_char_upper_letter _ Hy); reflexivity.
  - rewrite (upper_char_lower_letter _ Hy); reflexivity.
Qed.

Lemma spells_refl (c : str) : spells c c.
Proof. induction c; constructor; auto. Qed.

Lemma upper_state (c : str) : In c states -> upper c = c.
Proof.
  intros H; apply upper_of_spelling;
    [apply states_are_upper_letters; assumption | apply spells_refl].
Qed.

Lemma validate_state_inr (v r : str) :
  validate_state v = inr r <-> In (upper v) states /\ r = upper v.
Proof.
  unfold validate_state.
  destruct (str_in (upper v) states) eqn:E; cbn [negb].
  - apply str_in_In in E; split; [intros H; injection H; auto | intros [_ ->]; reflexivity].
  - split; [discriminate|].
    intros [H _]; apply (proj2 (str_in_In _ _)) in H; congruence.
Qed.

(** C3. [validate_state] accepts [v] exactly when [v.upper()] is one of the
    56 codes (no code twice; DC, PR, GU, VI, AS and MP among them), and
    then returns [v.upper()]; otherwise it raises. ["ZZ"] is refused, each
    of the 56 codes is accepted as it is, and every spelling of a code, in
    lower, upper or mixed case, gives that code. *)
Theorem state_accepted_iff_upper_in_states :
  (forall v, (exists r, validate_state v = inr r) <-> In (upper v) states)
  /\ (forall v r, validate_state v = inr r -> r = upper v)
  /\ (forall v, ~ In (upper v) states -> validate_state v = inl state_message)
  /\ (List.length states = 56%nat /\ NoDup states
      /\ incl (List.map lit ["DC"; "PR"; "GU"; "VI"; "AS"; "MP"]%string) states)
  /\ validate_state (lit "ZZ") = inl state_message
  /\ (forall c, In c states -> validate_state c = inr c)
  /\ (forall c v, In c states -> spells v c -> validate_state v = inr c).
Proof.
  assert (A : forall c v, In c states -> spells v c -> validate_state v = inr c).
  { intros c v Hc Hs; apply validate_state_inr.
    rewrite (upper_of_spelling v c (states_are_upper_letters c Hc) Hs); auto. }
  split; [|split; [|split; [|split; [|split; [|split]]]]].
  - intros v; split.
    + intros [r H]; apply validate_state_inr in H; tauto.
    + intros H; exists (upper v); apply validate_state_inr; auto.
  - intros v r H; apply validate_state_inr in H; tauto.
  - intros v H; unfold validate_state.
    destruct (str_in (upper v) states) eqn:E; [|reflexivity].
    apply str_in_In in E; contradiction.
  - split; [reflexivity|]; split.
    + unfold states; vm_compute; repeat constructor;
        intros H; repeat (destruct H as [H|H]; [discriminate H|]); exact H.
    + intros c H; apply str_in_In.
      cbn [List.map In] in H;
        repeat (destruct H as [<-|H]; [reflexivity|]); contradiction.
  - reflexivity.
  - intros c Hc; apply A; [assumption | apply spells_refl].
  - exact A.
Qed.

(** Reduce the projections of concrete payloads and models, nothing else. *)
(** ** The constructor *)

Ltac fields :=
  cbn [raw_company_name raw_state_of_formation raw_company_type
       raw_incorporator_name company_name state_of_formation company_type
       incorporator_name] in *.

Lemma validate_company_name_inr (v r : str) :
  validate_company_name v = inr r <-> re_match_company_name v = true /\ r = v.
Proof using.
  unfold validate_company_name.
  destruct (re_match_company_name v); cbn [negb]; split;
    try discriminate; try (intros [H _]; discriminate).
  - intros H; injection H; auto.
  - intros [_ ->]; reflexivity.
Qed.

(** When the constructor returns: each key holds text, the name matches
    the pattern, the upper-cased state is a known code, and the type is
    one of the two literals. *)
Lemma CompanyFormation_init_inr (data : payload) (d : CompanyFormation) :
  CompanyFormation_init data = inr d
  <-> raw_company_name data = Some (company_name d)
      /\ re_match_company_name (company_name d) = true
      /\ (exists s, raw_state_of_formation data = Some s
                    /\ In (upper s) states
                    /\ state_of_formation d = upper s)
      /\ raw_company_type data = Some (company_type d)
      /\ In (company_type d) permitted_types
      /\ raw_incorporator_name data = Some (incorporator_name d).
Proof.
  destruct data as [rn rs rt ri], d as [n s t i].
  unfold CompanyFormation_init, str_field, literal_field; fields.
  split.
  - destruct rn as [vn|]; [|discriminate].
    destruct (validate_company_name vn) as [m|n'] eqn:En; [discriminate|].
    apply validate_company_name_inr in En; destruct En as [En ->].
    destruct rs as [vs|]; [|discriminate].
    destruct (validate_state vs) as [m|s'] eqn:Es; [discriminate|].
    apply validate_state_inr in Es; destruct Es as [Es ->].
    destruct rt as [vt|]; [|discriminate].
    destruct (str_in vt permitted_types) eqn:Et; [|discriminate].
    apply str_in_In in Et.
    destruct ri as [vi|]; [|discriminate].
    intros H; injection H as <- <- <- <-.
    repeat split; try assumption; try reflexivity.
    exists vs; auto.
  - intros (E1 & Hn & (vs & E2 & Hs & E3) & E4 & Ht & E5); subst rn rs s rt ri.
    replace (validate_company_name n) with (@inr str str n)
      by (symmetry; apply validate_company_name_inr; auto).
    replace (validate_state vs) with (@inr str str (upper vs))
      by (symmetry; apply validate_state_inr; auto).
    apply (proj2 (str_in_In _ _)) in Ht; rewrite Ht; reflexivity.
Qed.

(** A refused payload carries at least one refusal. *)
Lemma CompanyFormation_init_inl (data : payload) (e : ValidationError) :
  CompanyFormation_init data = inl e -> e <> [].
Proof.
  destruct data as [rn rs rt ri].
  unfold CompanyFormation_init, str_field, literal_field; fields.
  destruct rn as [vn|]; [destruct (validate_company_name vn)|];
    (destruct rs as [vs|]; [destruct (validate_state vs)|]);
    (destruct rt as [vt|]; [destruct (str_in vt permitted_types)|]);
    destruct ri as [vi|]; cbn [errors_of app];
    intros H; first [discriminate H | injection H as <-; discriminate].
Qed.

(** C5. Construction is idempotent: when a payload is accepted, the
    accepted model, handed in again as a payload, is accepted and gives
    the same model. *)
Theorem validation_idempotent (data : payload) (d : CompanyFormation) :
  CompanyFormation_init data = inr d ->
  CompanyFormation_init (as_payload d) = inr d.
Proof.
  intros H; apply CompanyFormation_init_inr in H.
  destruct H as (_ & Hn & (s & _ & Hs & E) & _ & Ht & _).
  apply CompanyFormation_init_inr; unfold as_payload; fields.
  repeat split; try assumption.
  exists (state_of_formation d); split; [reflexivity|].
  rewrite E, (upper_state _ Hs); auto.
Qed.

(** ** Refusals at the endpoint *)

Lemma refused_raises (data : payload) :
  refused data -> exists e, CompanyFormation_init data = inl e.
Proof.
  intros R.
  destruct (CompanyFormation_init data) as [e|d] eqn:E; [exists e; reflexivity|].
  exfalso; apply CompanyFormation_init_inr in E.
  destruct E as (E1 & Hn & (s & E2 & Hs & _) & E3 & Ht & E4).
  destruct R as [R|[R|[R|[R|[(v & R & F)|[(v & R & F)|(v & R & F)]]]]]];
    congruence.
Qed.

Lemma raises_refused (data : payload) (e : ValidationError) :
  CompanyFormation_init data = inl e -> refused data.
Proof.
  intros E; unfold refused.
  destruct data as [[n|] [s|] [t|] [i|]]; fields; auto 6.
  destruct (re_match_company_name n) eqn:Hn; [|eauto 10].
  destruct (str_in (upper s) states) eqn:Hs;
    [apply str_in_In in Hs|
     do 5 right; left; exists s; split; [reflexivity|];
     intros H; apply (proj2 (str_in_In _ _)) in H; congruence].
  destruct (str_in t permitted_types) eqn:Ht;
    [apply str_in_In in Ht|
     do 6 right; exists t; split; [reflexivity|];
     intros H; apply (proj2 (str_in_In _ _)) in H; congruence].
  exfalso.
  assert (A : CompanyFormation_init
                {| raw_company_name := Some n; raw_state_of_formation := Some s;
                   raw_company_type := Some t; raw_incorporator_name := Some i |}
              = inr {| company_name := n; state_of_formation := upper s;
                       company_type := t; incorporator_name := i |}).
  { apply CompanyFormation_init_inr; fields; repeat split; auto.
    exists s; auto. }
  congruence.
Qed.

(** C7. A payload that is refused (a missing field, a name outside the
    pattern, an unknown state, a type outside the literals) gets a 400
    response whose error is the text of the validation error, which names
    at least one field; no template runs (no clock reading is taken) and
    no archive is sent. *)
Theorem refused_payload_gets_400 (data : payload) (w : world) :
  refused data ->
  exists e, e <> []
            /\ CompanyFormation_init data = inl e
            /\ form_company data w = (jsonify_error (str_of e) 400, w).
Proof.
  intros R; destruct (refused_raises data R) as [e E].
  exists e; split; [exact (CompanyFormation_init_inl data e E)|].
  split; [assumption|].
  unfold form_company; rewrite E; reflexivity.
Qed.

(** C2. A payload that is accepted with a state other than DE and CA
    (TX, say) gets status 400 with the one error text of the [else]
    branch; no template runs and no archive is sent. *)
Theorem other_state_gets_400 (data : payload) (d : CompanyFormation) (w : world) :
  CompanyFormation_init data = inr d ->
  state_of_formation d <> lit "DE" ->
  state_of_formation d <> lit "CA" ->
  form_company data w
  = (jsonify_error
       (message (lit "Only Delaware and California entities are supported at this time"))
       400, w).
Proof.
  intros E Hde _; unfold form_company, dispatch; rewrite E.
  destruct (str_eqb (state_of_formation d) (lit "DE")) eqn:S; [|reflexivity].
  apply str_eqb_eq in S; contradiction.
Qed.

(** C8. A request for DE whose company type is outside
    [corporation]/[LLC] ([partnership], say) gets a 400 response whose
    error is the text of a validation error that refuses the field
    [company_type] as not permitted; no template runs. *)
Theorem other_type_gets_400 (data : payload) (t : str) (w : world) :
  raw_state_of_formation data = Some (lit "DE") ->
  raw_company_type data = Some t ->
  ~ In t permitted_types ->
  exists e, In (f_company_type, not_permitted [lit "corporation"; lit "LLC"]) e
            /\ form_company data w = (jsonify_error (str_of e) 400, w).
Proof.
  intros _ Et Ht.
  assert (F : str_in t permitted_types = false).
  { destruct (str_in t permitted_types) eqn:F; [|reflexivity].
    apply str_in_In in F; contradiction. }
  destruct data as [rn rs rt ri]; fields; subst rt.
  unfold form_company, CompanyFormation_init, str_field, literal_field;
    fields; rewrite F.
  destruct rn as [vn|]; [destruct (validate_company_name vn)|];
    (destruct rs as [vs|]; [destruct (validate_state vs)|]);
    destruct ri as [vi|]; cbn [errors_of app];
    (eexists; split; [|reflexivity]); cbn [In]; auto 6.
Qed.

(** ** What the templates write *)

Lemma starts_with_app (s b : str) : starts_with (s ++ b) s = true.
Proof using.
  induction s as [|c s IH]; [reflexivity|].
  simpl; rewrite N.eqb_refl, IH; reflexivity.
Qed.

Lemma contains_here (s b : str) : contains (s ++ b) s = true.
Proof using.
  destruct (s ++ b) eqn:E; simpl; rewrite <- E, starts_with_app; reflexivity.
Qed.

Lemma contains_self (s : str) : contains s s = true.
Proof using. rewrite <- (app_nil_r s) at 1; apply contains_here. Qed.

Lemma contains_app (a t s : str) :
  contains t s = true -> contains (a ++ t) s = true.
Proof using.
  intros H; induction a as [|c a IH]; [assumption|].
  simpl; rewrite IH; apply orb_true_r.
Qed.

Lemma first_line_app (a b : str) :
  forallb (fun c => negb (c =? 10)) a = true ->
  first_line (a ++ nl ++ b) = a.
Proof using.
  induction a as [|c a IH]; [reflexivity|].
  simpl; intros H; apply andb_true_iff in H; destruct H as [Hc Ha].
  destruct (c =? 10); [discriminate|].
  f_equal; apply IH; assumption.
Qed.

Ltac find_substring :=
  repeat first [ apply contains_here | apply contains_self | apply contains_app ].

(** What both Delaware templates put into their two artifacts. *)
Lemma delaware_articles_content (d : CompanyFormation) (w : world) :
  let out := fst (generate_delaware_articles d w) in
  title_of (fst out) = Some (lit "CERTIFICATE OF INCORPORATION")
  /\ first_line (snd out) = lit "CERTIFICATE OF INCORPORATION"
  /\ In (drawString 70 680 (company_name d)) (fst out)
  /\ In (drawString 70 80 (incorporator_name d)) (fst out)
  /\ contains (snd out) (company_name d) = true
  /\ contains (snd out) (incorporator_name d) = true.
Proof using.
  cbv beta iota zeta delta [generate_delaware_articles bind now ret fst snd].
  split; [reflexivity|].
  split; [apply first_line_app; reflexivity|].
  split; [cbn [app In]; auto 20|].
  split; [cbn [app In]; auto 20|].
  split; find_substring.
Qed.

Lemma delaware_llc_content (d : CompanyFormation) (w : world) :
  let out := fst (generate_delaware_llc_certificate d w) in
  title_of (fst out) = Some (lit "CERTIFICATE OF FORMATION")
  /\ first_line (snd out) = lit "CERTIFICATE OF FORMATION"
  /\ In (drawString 70 680 (company_name d)) (fst out)
  /\ In (drawString 70 80 (incorporator_name d)) (fst out)
  /\ contains (snd out) (company_name d) = true
  /\ contains (snd out) (incorporator_name d) = true.
Proof using.
  cbv beta iota zeta delta [generate_delaware_llc_certificate bind now ret fst snd].
  split; [reflexivity|].
  split; [apply first_line_app; reflexivity|].
  split; [cbn [app In]; auto 20|].
  split; [cbn [app In]; auto 20|].
  split; find_substring.
Qed.

(** ** The libraries behind the archive *)

Lemma encodable_app (a b : str) :
  encodable (a ++ b) = encodable a && encodable b.
Proof using. apply forallb_app. Qed.

Lemma utf8_length_app (a b : str) :
  utf8_length (a ++ b) = utf8_length a + utf8_length b.
Proof using.
  unfold utf8_length; induction a as [|c a IH]; cbn [app fold_right];
    [reflexivity | rewrite IH; lia].
Qed.

Lemma encodable_digits (u : Decimal.uint) :
  encodable (lit (NilEmpty.string_of_uint u)) = true.
Proof using.
  induction u as [|u IH|u IH|u IH|u IH|u IH|u IH|u IH|u IH|u IH|u IH];
    [reflexivity|..]; exact IH.
Qed.

Lemma encodable_directive (t : datetime) (d : N) :
  d = 100 \/ d = 66 \/ d = 89 -> encodable (directive t d) = true.
Proof using.
  unfold directive; intros [-> | [-> | ->]]; cbn [N.eqb Pos.eqb].
  - destruct (day t <? 10); [|apply encodable_digits].
    change (encodable (48 :: decimal (day t))) with (encodable (decimal (day t))).
    apply encodable_digits.
  - destruct (month t); reflexivity.
  - apply encodable_digits.
Qed.

(** The date of the text, whatever the clock shows, can be encoded. *)
Lemma encodable_today (t : datetime) :
  encodable (strftime t (lit "%d %B, %Y")) = true.
Proof using.
  change (strftime t (lit "%d %B, %Y"))
    with (directive t 100 ++ lit " "
          ++ directive t 66 ++ lit ", " ++ directive t 89 ++ []).
  rewrite !encodable_app, !encodable_directive by auto; reflexivity.
Qed.

Ltac encode_literals :=
  rewrite !encodable_app, encodable_today;
  repeat match goal with
         | |- context [encodable (lit ?s)] =>
             change (encodable (lit s)) with true
         end;
  change (encodable nl) with true; cbn [andb]; rewrite ?andb_true_r.

Lemma delaware_articles_text_encodable (d : CompanyFormation) (w : world) :
  encodable (snd (fst (generate_delaware_articles d w)))
  = encodable (company_name d) && encodable (incorporator_name d).
Proof using.
  cbv beta iota zeta delta [generate_delaware_articles bind now ret fst snd].
  encode_literals; reflexivity.
Qed.

Lemma delaware_llc_text_encodable (d : CompanyFormation) (w : world) :
  encodable (snd (fst (generate_delaware_llc_certificate d w)))
  = encodable (company_name d) && encodable (incorporator_name d).
Proof using.
  cbv beta iota zeta delta
    [generate_delaware_llc_certificate bind now ret fst snd].
  encode_literals; reflexivity.
Qed.

(** A character of the class of names is no surrogate. *)
Lemma name_char_encodable (c : N) :
  name_char c = true -> negb (is_surrogate c) = true.
Proof using.
  unfold is_surrogate; intros H.
  destruct ((55296 <=? c) && (c <=? 57343)) eqn:S; [|reflexivity].
  apply andb_true_iff in S; destruct S as [S1 S2].
  apply N.leb_le in S1, S2; exfalso; revert H.
  unfold name_char, is_space.
  repeat match goal with
         | |- context [?a <=? ?b] =>
             first [ replace (a <=? b) with true
                       by (symmetry; apply N.leb_le; lia)
                   | replace (a <=? b) with false
                       by (symmetry; apply N.leb_gt; lia) ]
         | |- context [?a =? ?b] =>
             replace (a =? b) with false by (symmetry; apply N.eqb_neq; lia)
         end.
  discriminate.
Qed.

Lemma accepted_name_encodable (data : payload) (d : CompanyFormation) :
  CompanyFormation_init data = inr d -> encodable (company_name d) = true.
Proof.
  intros E; apply CompanyFormation_init_inr in E.
  destruct E as (_ & Hn & _); apply re_match_company_name_spec in Hn.
  destruct Hn as [_ Hn]; unfold encodable; apply forallb_forall.
  rewrite Forall_forall in Hn; intros c Hc.
  apply name_char_encodable, Hn, Hc.
Qed.

(** When the archive is sent and when a library raises. *)
Lemma send_archive_cases (d : CompanyFormation) (p : pdf) (t : str) :
  encodable (company_name d) = true ->
  encodable t = encodable (incorporator_name d) ->
  (deliverable d = true -> send_archive d p t = inr (archive_response d (p, t)))
  /\ (deliverable d = false -> exists x, send_archive d p t = inl x).
Proof using.
  intros Hn Ht.
  unfold send_archive, ZipFile_writestr, flask_send_file, deliverable,
    archive_response.
  rewrite !encodable_app, !utf8_length_app, existsb_app, Hn, Ht.
  change (encodable (lit "_certificate.pdf")) with true.
  change (encodable (lit "_certificate.txt")) with true.
  change (encodable (lit "_formation_documents.zip")) with true.
  change (utf8_length (lit "_certificate.pdf")) with 16.
  change (utf8_length (lit "_certificate.txt")) with 16.
  change (existsb is_line_break (lit "_formation_documents.zip")) with false.
  rewrite N.ltb_antisym, orb_false_r.
  destruct (utf8_length (company_name d) + 16 <=? 65535),
    (encodable (incorporator_name d)),
    (existsb is_line_break (company_name d));
    cbn [andb negb app fst snd]; split; intros H;
    first [discriminate H | reflexivity | eexists; reflexivity].
Qed.

(** ** Dispatch *)

Lemma delaware_articles_readings (d : CompanyFormation) (w : world) :
  snd (generate_delaware_articles d w) = advance 3 w.
Proof using. reflexivity. Qed.

Lemma delaware_llc_readings (d : CompanyFormation) (w : world) :
  snd (generate_delaware_llc_certificate d w) = advance 3 w.
Proof using. reflexivity. Qed.

Lemma artifacts_text_encodable (d : CompanyFormation) (w : world) :
  encodable (snd (artifacts d w))
  = encodable (company_name d) && encodable (incorporator_name d).
Proof using.
  unfold artifacts; destruct (str_eqb (company_type d) (lit "corporation"));
    [apply delaware_articles_text_encodable
    | apply delaware_llc_text_encodable].
Qed.

(** A Delaware model of either type: its template runs, reading the
    clock three times, and the archive of its artifacts is attempted. *)
Lemma dispatch_delaware (d : CompanyFormation) (w : world) :
  state_of_formation d = lit "DE" ->
  company_type d = lit "corporation" \/ company_type d = lit "LLC" ->
  dispatch d w
  = (send_archive d (fst (artifacts d w)) (snd (artifacts d w)), advance 3 w).
Proof using.
  intros Hs Ht; unfold dispatch, artifacts, bind, ret.
  rewrite Hs, str_eqb_refl; destruct Ht as [Ht|Ht]; rewrite Ht.
  - rewrite str_eqb_refl, <- (delaware_articles_readings d w).
    destruct (generate_delaware_articles d w) as [[p t] w']; reflexivity.
  - change (str_eqb (lit "LLC") (lit "corporation")) with false.
    rewrite str_eqb_refl, <- (delaware_llc_readings d w); cbv beta iota.
    destruct (generate_delaware_llc_certificate d w) as [[p t] w'];
      reflexivity.
Qed.

Lemma dispatch_other_state (d : CompanyFormation) (w : world) :
  state_of_formation d <> lit "DE" ->
  dispatch d w
  = (inr (jsonify_error (message unsupported_state_message) 400), w).
Proof using.
  intros Hs; unfold dispatch.
  destruct (str_eqb (state_of_formation d) (lit "DE")) eqn:S; [|reflexivity].
  apply str_eqb_eq in S; contradiction.
Qed.

(** The inner [else] is there: a Delaware model of another type, were one
    ever constructed, would take it. *)
Lemma dispatch_delaware_other_type (d : CompanyFormation) (w : world) :
  state_of_formation d = lit "DE" ->
  ~ In (company_type d) permitted_types ->
  dispatch d w
  = (inr (jsonify_error (message unsupported_type_message) 400), w).
Proof using.
  intros Hs Ht; unfold dispatch, bind, ret.
  rewrite Hs, str_eqb_refl.
  destruct (str_eqb (company_type d) (lit "corporation")) eqn:E1;
    [apply str_eqb_eq in E1; exfalso; apply Ht; left; auto|].
  destruct (str_eqb (company_type d) (lit "LLC")) eqn:E2;
    [apply str_eqb_eq in E2; exfalso; apply Ht; right; left; auto|].
  reflexivity.
Qed.

Lemma accepted_type (data : payload) (d : CompanyFormation) :
  CompanyFormation_init data = inr d ->
  company_type d = lit "corporation" \/ company_type d = lit "LLC".
Proof.
  intros E; apply CompanyFormation_init_inr in E.
  destruct E as (_ & _ & _ & _ & [H|[H|[]]] & _); auto.
Qed.

(** The paths through [form_company]. *)
Lemma form_company_cases (data : payload) (w : world) :
  (exists e, CompanyFormation_init data = inl e
             /\ form_company data w = (jsonify_error (str_of e) 400, w))
  \/ (exists d, CompanyFormation_init data = inr d
                /\ state_of_formation d <> lit "DE"
                /\ form_company data w
                   = (jsonify_error (message unsupported_state_message) 400, w))
  \/ (exists d, CompanyFormation_init data = inr d
                /\ state_of_formation d = lit "DE"
                /\ deliverable d = true
                /\ form_company data w
                   = (archive_response d (artifacts d w), advance 3 w))
  \/ (exists d x, CompanyFormation_init data = inr d
                /\ state_of_formation d = lit "DE"
                /\ deliverable d = false
                /\ form_company data w
                   = (jsonify_error (str_of_raised x) 400, advance 3 w)).
Proof.
  unfold form_company.
  destruct (CompanyFormation_init data) as [e|d] eqn:E;
    [left; exists e; auto|right].
  destruct (str_eqb (state_of_formation d) (lit "DE")) eqn:S.
  - apply str_eqb_eq in S; right.
    unfold bind; rewrite (dispatch_delaware d w S (accepted_type data d E)).
    pose proof (accepted_name_encodable data d E) as Hn.
    assert (Ht : encodable (snd (artifacts d w))
                 = encodable (incorporator_name d))
      by (rewrite artifacts_text_encodable, Hn; reflexivity).
    destruct (send_archive_cases d (fst (artifacts d w))
                (snd (artifacts d w)) Hn Ht) as [Yes No].
    destruct (deliverable d) eqn:D.
    + left; exists d; rewrite (Yes eq_refl).
      rewrite <- surjective_pairing; auto.
    + right; destruct (No eq_refl) as [x Hx]; exists d, x; rewrite Hx; auto.
  - left; exists d.
    assert (N : state_of_formation d <> lit "DE")
      by (intros H; apply (proj2 (str_eqb_eq _ _)) in H; congruence).
    unfold bind; rewrite (dispatch_other_state d w N); auto.
Qed.

(** C10. An accepted payload has company type [corporation] or [LLC],
    so the endpoint never answers it with the inner fallback
    ["Unsupported company type"]: a Delaware request gets the archive
    or, when a library raises, the text of its exception; any other the
    error of the outer [else]. *)
Theorem unsupported_type_branch_unreachable
  (data : payload) (d : CompanyFormation) (w : world) :
  CompanyFormation_init data = inr d ->
  (company_type d = lit "corporation" \/ company_type d = lit "LLC")
  /\ fst (form_company data w)
     <> jsonify_error (message (lit "Unsupported company type")) 400.
Proof.
  intros E; pose proof (accepted_type data d E) as T.
  split; [assumption|].
  destruct (form_company_cases data w)
    as [(e & _ & H)|[(d' & _ & _ & H)|[(d' & _ & _ & _ & H)
                                      |(d' & x & _ & _ & _ & H)]]];
    rewrite H; cbn [fst]; discriminate.
Qed.

(** C1, on the code as it is: the California corporation and the
    California LLC of the schema's examples are accepted by the model and
    then answered with the error of the outer [else]; neither California
    template is called, and no clock reading is taken. *)
Theorem california_corporation_gets_400 (w : world) :
  CompanyFormation_init tech_innovators
  = inr {| company_name := lit "Tech Innovators Co.";
           state_of_formation := lit "CA";
           company_type := lit "corporation";
           incorporator_name := lit "Michael Johnson" |}
  /\ form_company tech_innovators w
     = (jsonify_error
          (message (lit "Only Delaware and California entities are supported at this time"))
          400, w)
  /\ CompanyFormation_init california_dreaming
     = inr {| company_name := lit "California Dreaming, LLC";
              state_of_formation := lit "CA";
              company_type := lit "LLC";
              incorporator_name := lit "Emily Chen" |}
  /\ form_company california_dreaming w
     = (jsonify_error
          (message (lit "Only Delaware and California entities are supported at this time"))
          400, w).
Proof. repeat split. Qed.



(** ** The date in the two artifacts *)

(** The document's day is read first and the text's date last: across
    midnight the document says [31] and the text [01 January, 2025], so
    the two artifacts do not carry one date. *)
Lemma across_midnight_dates_differ :
  (let out := fst (generate_delaware_articles acme_model across_midnight) in
   In (drawString 50 180
         (lit "has executed this Certificate of Incorporation this 31 day of"))
      (fst out)
   /\ In (drawString 50 160 (lit "January, 2025.")) (fst out)
   /\ contains (snd out)
        (lit "has executed this Certificate of Incorporation this 01 January, 2025.")
      = true)
  /\ ~ one_date generate_delaware_articles acme_model across_midnight.
Proof using.
  split; [vm_compute; intuition|].
  intros [t H].
  cbv beta iota zeta delta
    [generate_delaware_articles bind now ret fst snd frozen across_midnight
     clock reads] in H.
  injection H as Hday _ Htext.
  rewrite app_nil_r in Hday.
  change (51 :: 49 :: lit " day of") with ([51; 49] ++ lit " day of") in Hday.
  apply app_inv_tail in Hday.
  rewrite <- Hday in Htext; cbn [app] in Htext; discriminate Htext.
Qed.

Lemma california_articles_content (d : CompanyFormation) (w : world) :
  let document : pdf := fst (generate_california_articles d w) in
  title_of document = Some (lit "ARTICLES OF INCORPORATION")
  /\ In (drawString 70 680 (company_name d)) document
  /\ In (drawString 70 80 (incorporator_name d)) document.
Proof using.
  cbv beta iota zeta delta [generate_california_articles bind now ret fst snd].
  split; [reflexivity|]; split; cbn [app In]; auto 20.
Qed.

Lemma california_llc_content (d : CompanyFormation) (w : world) :
  let document : pdf := fst (generate_california_llc_certificate d w) in
  title_of document = Some (lit "ARTICLES OF ORGANIZATION")
  /\ In (drawString 70 680 (company_name d)) document
  /\ In (drawString 70 80 (incorporator_name d)) document.
Proof using.
  cbv beta iota zeta delta [generate_california_llc_certificate bind now ret fst snd].
  split; [reflexivity|]; split; cbn [app In]; auto 20.
Qed.

(** C9, as the code has it. Each Delaware template returns a document
    and a text that carry the same company name and the same
    incorporator name, and, when the three readings of the clock it takes
    show one date, that same date: the document's day and its month and
    year are those of the text. Each California template returns a
    document alone. *)
Theorem delaware_artifacts_agree :
  (forall d w,
      let out : pdf * str := fst (generate_delaware_articles d w) in
      In (drawString 70 680 (company_name d)) (fst out)
      /\ contains (snd out) (company_name d) = true
      /\ In (drawString 70 80 (incorporator_name d)) (fst out)
      /\ contains (snd out) (incorporator_name d) = true)
  /\ (forall d w,
      let out : pdf * str := fst (generate_delaware_llc_certificate d w) in
      In (drawString 70 680 (company_name d)) (fst out)
      /\ contains (snd out) (company_name d) = true
      /\ In (drawString 70 80 (incorporator_name d)) (fst out)
      /\ contains (snd out) (incorporator_name d) = true)
  /\ (forall d w t, readings_show w t ->
      let out : pdf * str := fst (generate_delaware_articles d w) in
      one_date generate_delaware_articles d w
      /\ In (drawString 50 180
               (lit "has executed this Certificate of Incorporation this "
                ++ strftime t (lit "%d") ++ lit " day of")) (fst out)
      /\ In (drawString 50 160 (strftime t (lit "%B, %Y") ++ lit ".")) (fst out)
      /\ contains (snd out) (strftime t (lit "%d %B, %Y")) = true)
  /\ (forall d w t, readings_show w t ->
      let out : pdf * str := fst (generate_delaware_llc_certificate d w) in
      one_date generate_delaware_llc_certificate d w
      /\ In (drawString 50 200
               (lit "IN WITNESS WHEREOF, the undersigned has executed this Certificate of Formation this "
                ++ strftime t (lit "%d") ++ lit " day of")) (fst out)
      /\ In (drawString 50 180 (strftime t (lit "%B, %Y") ++ lit ".")) (fst out)
      /\ contains (snd out) (strftime t (lit "%d %B, %Y")) = true)
  /\ (forall d w,
      let document : pdf := fst (generate_california_articles d w) in
      title_of document = Some (lit "ARTICLES OF INCORPORATION")
      /\ In (drawString 70 680 (company_name d)) document
      /\ In (drawString 70 80 (incorporator_name d)) document)
  /\ (forall d w,
      let document : pdf := fst (generate_california_llc_certificate d w) in
      title_of document = Some (lit "ARTICLES OF ORGANIZATION")
      /\ In (drawString 70 680 (company_name d)) document
      /\ In (drawString 70 80 (incorporator_name d)) document).
Proof using.
  split; [|split; [|split; [|split; [|split]]]].
  - intros d w; pose proof (delaware_articles_content d w) as H; cbv zeta in *.
    tauto.
  - intros d w; pose proof (delaware_llc_content d w) as H; cbv zeta in *.
    tauto.
  - intros d w t (H1 & H2 & H3); cbv zeta; unfold one_date.
    cbv beta iota zeta delta
      [generate_delaware_articles bind now ret fst snd frozen clock reads].
    fold (reads w); fold (clock w); rewrite H1, H2, H3.
    split; [exists t; reflexivity|].
    split; [cbn [app In]; auto 20|].
    split; [cbn [app In]; auto 20|].
    find_substring.
  - intros d w t (H1 & H2 & H3); cbv zeta; unfold one_date.
    cbv beta iota zeta delta
      [generate_delaware_llc_certificate bind now ret fst snd frozen clock reads].
    fold (reads w); fold (clock w); rewrite H1, H2, H3.
    split; [exists t; reflexivity|].
    split; [cbn [app In]; auto 20|].
    split; [cbn [app In]; auto 20|].
    find_substring.
  - exact california_articles_content.
  - exact california_llc_content.
Qed.

(** * Further properties of the code *)

(** ** What the validation error reports *)

Lemma str_in_false (x : str) (xs : list str) :
  str_in x xs = false -> ~ In x xs.
Proof using.
  intros F H; apply (proj2 (str_in_In _ _)) in H; congruence.
Qed.

Ltac settle_field :=
  match goal with
  | |- _ <-> _ => split; intros ?; settle_field
  | H : _ \/ _ |- _ => destruct H; settle_field
  | H : exists _, _ |- _ => destruct H as (? & ? & ?); settle_field
  | H : False |- _ => destruct H
  | H : Some _ = Some _ |- _ => injection H as ->; settle_field
  | H : _ = _ |- _ => discriminate H
  | H : ~ ?P, H' : ?P |- _ => destruct (H H')
  | |- _ => first
      [ left; reflexivity
      | right; left; reflexivity
      | right; right; left; reflexivity
      | right; right; right; left; reflexivity
      | right; eexists; split; [reflexivity | eassumption]
      | congruence ]
  end.

(** X1. A validation error names a field exactly when the model has
    something against its value, names it as required exactly when the
    key holds no text, and lists the fields once each, in the order of
    their declaration: every refusal is reported, not the first alone. *)
Theorem every_refusal_reported (data : payload) (e : ValidationError) :
  CompanyFormation_init data = inl e ->
  (forall f, In f (List.map fst e) <-> field_refused data f)
  /\ (forall f, In (f, required) e <-> raw_field data f = None)
  /\ StronglySorted lt (List.map field_index (List.map fst e)).
Proof.
  destruct data as [rn rs rt ri].
  unfold CompanyFormation_init, str_field, literal_field,
    validate_company_name, validate_state; fields.
  destruct rn as [vn|];
    [destruct (re_match_company_name vn) eqn:Hn|];
    (destruct rs as [vs|];
     [destruct (str_in (upper vs) states) eqn:Hs;
      [apply str_in_In in Hs | apply str_in_false in Hs]|]);
    (destruct rt as [vt|];
     [destruct (str_in vt permitted_types) eqn:Ht;
      [apply str_in_In in Ht | apply str_in_false in Ht]|]);
    destruct ri as [vi|]; cbn [negb errors_of app];
    intros H; first [discriminate H | injection H as <-];
    (split; [|split]);
    try (intros f; destruct f; unfold field_refused, raw_field; fields;
         cbn [List.map fst In]; settle_field);
    cbn [List.map fst field_index];
    repeat (constructor; try lia).
Qed.

(** X2. A payload is accepted exactly when none of the causes of a refusal
    holds; the model then holds the name, the type and the incorporator
    as they were sent, and the state in upper case. *)
Theorem accepted_iff_not_refused (data : payload) :
  ((exists d, CompanyFormation_init data = inr d) <-> ~ refused data)
  /\ (forall d, CompanyFormation_init data = inr d ->
        raw_company_name data = Some (company_name d)
        /\ raw_company_type data = Some (company_type d)
        /\ raw_incorporator_name data = Some (incorporator_name d)
        /\ exists s, raw_state_of_formation data = Some s
                     /\ state_of_formation d = upper s).
Proof.
  split; [split|].
  - intros [d E] R; destruct (refused_raises data R) as [e E']; congruence.
  - intros H; destruct (CompanyFormation_init data) as [e|d] eqn:E;
      [|exists d; reflexivity].
    destruct (H (raises_refused data e E)).
  - intros d E; apply CompanyFormation_init_inr in E.
    destruct E as (E1 & _ & (s & E2 & _ & E3) & E4 & _ & E5).
    repeat split; try assumption; exists s; auto.
Qed.

(** ** The state, once accepted *)

Lemma upper_ascii (v : str) :
  Forall (fun c => c < 128) v -> upper v = List.map ascii_upper v.
Proof.
  induction 1 as [|c v Hc _ IH]; [reflexivity|].
  unfold upper in *; cbn [flat_map List.map]; rewrite IH.
  unfold upper_char; apply N.ltb_lt in Hc; rewrite Hc; reflexivity.
Qed.

Lemma spelling_of_ascii_upper (c y : N) :
  ascii_upper c = y -> is_upper_letter y = true ->
  c = y \/ c = ascii_lower y.
Proof using.
  unfold ascii_upper, ascii_lower, is_upper_letter; intros E Hy; rewrite Hy.
  apply andb_true_iff in Hy; destruct Hy as [H1 H2].
  apply N.leb_le in H1, H2.
  destruct ((97 <=? c) && (c <=? 122)) eqn:R; [|left; assumption].
  apply andb_true_iff in R; destruct R as [R1 R2].
  apply N.leb_le in R1, R2; right; lia.
Qed.

Lemma spells_of_ascii_upper (v r : str) :
  List.map ascii_upper v = r -> forallb is_upper_letter r = true ->
  spells v r.
Proof using.
  revert r; induction v as [|c v IH]; intros r E Hr; subst r;
    [constructor|].
  cbn [List.map forallb] in *; apply andb_true_iff in Hr.
  destruct Hr as [Hc Hr]; constructor;
    [apply spelling_of_ascii_upper; auto | apply IH; auto].
Qed.

Lemma states_have_two_letters (c : str) :
  In c states -> List.length c = 2%nat.
Proof using.
  assert (H : forallb (fun c => Nat.eqb (List.length c) 2) states = true)
    by reflexivity.
  rewrite forallb_forall in H; intros Hc; apply Nat.eqb_eq, H, Hc.
Qed.

(** X3. The state that [validate_state] returns is always two ASCII capital
    letters, and is accepted again as it is. An input that is all ASCII
    is accepted exactly when it spells one of the codes in some mix of
    cases; in particular it has two letters. *)
Theorem accepted_state_is_canonical (v r : str) :
  (validate_state v = inr r ->
     List.length r = 2%nat
     /\ forallb is_upper_letter r = true
     /\ validate_state r = inr r)
  /\ (Forall (fun c => c < 128) v ->
      (validate_state v = inr r <-> In r states /\ spells v r)).
Proof.
  split.
  - intros H; apply validate_state_inr in H; destruct H as [H ->].
    split; [apply states_have_two_letters; assumption|].
    split; [apply states_are_upper_letters; assumption|].
    apply validate_state_inr; rewrite (upper_state _ H); auto.
  - intros A; split.
    + intros H; apply validate_state_inr in H; destruct H as [H ->].
      split; [assumption|].
      apply spells_of_ascii_upper;
        [symmetry; apply upper_ascii; assumption
        | apply states_are_upper_letters; assumption].
    + intros [H S]; apply validate_state_inr.
      rewrite (upper_of_spelling v r (states_are_upper_letters r H) S); auto.
Qed.

(** X4. The length of the input is not checked: a single code point whose
    upper-case form, by the interpreter's table, is the two letters of a
    code is accepted as that code. *)
Theorem state_of_one_code_point (c : N) (code : str) :
  128 <= c -> unicode_upper c = code -> In code states ->
  validate_state [c] = inr code.
Proof.
  intros Hc E H; apply validate_state_inr.
  assert (U : upper [c] = code).
  { unfold upper, upper_char; cbn [flat_map].
    replace (c <? 128) with false by (symmetry; apply N.ltb_ge; assumption).
    rewrite app_nil_r; assumption. }
  rewrite U; auto.
Qed.

(** ** Names made of white space *)

(** X5. A name that is not empty and is all white space (blanks, tabs, line
    breaks) matches the pattern and is accepted as it is. *)
Theorem blank_company_name_accepted (v : str) :
  v <> [] -> Forall (fun c => is_space c = true) v ->
  validate_company_name v = inr v.
Proof using.
  intros Hv Hs; apply validate_company_name_inr; split; [|reflexivity].
  apply re_match_company_name_spec; split; [assumption|].
  apply Forall_impl with (2 := Hs); intros c Hc.
  unfold name_char; rewrite Hc, !orb_true_r; reflexivity.
Qed.

(** ** The outcomes of the endpoint *)


(** Three accepted Delaware requests that cannot be delivered, and what
    is raised for each: all three are answered 400 after the template
    has run. *)
Lemma undelivered_requests :
  let w := frozen third_of_november in
  form_company acme_newline w
  = (jsonify_error (str_of_raised ValueError) 400, advance 3 w)
  /\ form_company acme_surrogate w
     = (jsonify_error (str_of_raised UnicodeEncodeError) 400, advance 3 w)
  /\ form_company long_name w
     = (jsonify_error (str_of_raised struct_error) 400, advance 3 w).
Proof. cbv zeta; repeat split; vm_compute; reflexivity. Qed.

(** X7. The case in which the state is spelled does not reach the response:
    a payload with a code spelled in any mix of cases is answered as the
    payload with the code itself. *)
Theorem state_spelling_irrelevant
  (data : payload) (c v : str) (w : world) :
  In c states -> spells v c ->
  form_company (with_state data v) w = form_company (with_state data c) w.
Proof.
  intros Hc Hs.
  assert (Ev : validate_state v = inr c).
  { apply validate_state_inr.
    rewrite (upper_of_spelling v c (states_are_upper_letters c Hc) Hs); auto. }
  assert (Ec : validate_state c = inr c).
  { apply validate_state_inr; rewrite (upper_state c Hc); auto. }
  unfold form_company, CompanyFormation_init, with_state, str_field; fields.
  rewrite Ev, Ec; reflexivity.
Qed.

(** ** The names in the archive *)

Lemma accepted_name_chars (data : payload) (d : CompanyFormation) :
  CompanyFormation_init data = inr d ->
  Forall (fun c => name_char c = true) (company_name d).
Proof.
  intros E; apply CompanyFormation_init_inr in E.
  destruct E as (_ & Hn & _); apply re_match_company_name_spec in Hn; tauto.
Qed.

Lemma no_separator_in_name (n suffix : str) (c : N) :
  Forall (fun c => name_char c = true) n ->
  name_char c = false -> ~ In c suffix -> ~ In c (n ++ suffix).
Proof using.
  intros Hn Hc Hs H; apply in_app_or in H; destruct H as [H|H];
    [|exact (Hs H)].
  rewrite Forall_forall in Hn; specialize (Hn c H); congruence.
Qed.

(** X8. An archive that is sent has two entries of different names, and
    neither name, nor the name of the download, holds a slash, a
    backslash or a NUL: the entries stay at the top of the archive. *)
Theorem archive_names_are_flat
  (data : payload) (w w' : world)
  (body : archive) (mimetype download_name : str) :
  form_company data w = (send_file body mimetype download_name, w') ->
  List.length body = 2%nat
  /\ NoDup (List.map fst body)
  /\ forall name, In name (download_name :: List.map fst body) ->
       ~ In 47 name /\ ~ In 92 name /\ ~ In 0 name.
Proof.
  intros H.
  destruct (form_company_cases data w)
    as [(e & E & H')|[(d & E & S & H')|[(d & E & S & D & H')
                                       |(d & x & E & S & D & H')]]];
    rewrite H' in H; try discriminate H.
  unfold archive_response in H; injection H as <- _ <- _.
  pose proof (accepted_name_chars data d E) as Hn.
  split; [reflexivity|]; split.
  - cbn [List.map fst]; constructor; [|constructor; [intros []|constructor]].
    intros [F|[]]; apply app_inv_head in F; discriminate F.
  - intros name Hin; cbn [List.map fst In] in Hin.
    destruct Hin as [<-|[<-|[<-|[]]]]; repeat split;
      apply no_separator_in_name; try assumption; try reflexivity;
      vm_compute; intuition discriminate.
Qed.

(** ** The page *)

Ltac lay_out :=
  unfold well_laid_out, heights;
  cbn [app typeset page_of last List.map fst snd];
  repeat match goal with
         | |- _ /\ _ => split
         | |- Forall _ _ => constructor
         | |- StronglySorted _ _ => constructor
         | |- _ = _ => reflexivity
         | |- (_ > _)%Z => reflexivity
         | |- (_ < _)%Z => reflexivity
         end.

(** X9. Whatever the request and the clock, each of the four templates gives
    a document that is well laid out. *)
Theorem templates_are_well_laid_out (d : CompanyFormation) (w : world) :
  Forall (fun template => well_laid_out (fst (template d w))) templates.
Proof using.
  unfold templates; repeat constructor;
    cbv beta iota zeta delta
      [generate_delaware_articles generate_delaware_llc_certificate
       generate_california_articles generate_california_llc_certificate
       bind now ret fst snd letter];
    lay_out.
Qed.

(** ** The document and the text of a Delaware template *)

Ltac find_clause :=
  match goal with
  | H : In _ _ |- _ =>
      cbn [In] in H;
      repeat (destruct H as [H|H];
              [injection H as <- <- <- <-;
               first [ left; reflexivity
                     | right; left; reflexivity
                     | right; right; solve [find_substring] ] |]);
      destruct H
  end.

(** X10. Apart from the two lines that carry the date, every string that a
    Delaware template draws into the document is also in its text: the
    title, each clause, the company's and the incorporator's names. *)
Theorem delaware_text_has_the_clauses (d : CompanyFormation) (w : world) :
  (forall font x y s,
      In (font, (x, y), s)
         (typeset None (fst (fst (generate_delaware_articles d w)))) ->
      y = 180%Z \/ y = 160%Z
      \/ contains (snd (fst (generate_delaware_articles d w))) s = true)
  /\ (forall font x y s,
      In (font, (x, y), s)
         (typeset None (fst (fst (generate_delaware_llc_certificate d w)))) ->
      y = 200%Z \/ y = 180%Z
      \/ contains (snd (fst (generate_delaware_llc_certificate d w))) s = true).
Proof using.
  split; intros font x y s;
    cbv beta iota zeta delta
      [generate_delaware_articles generate_delaware_llc_certificate
       bind now ret fst snd];
    cbn [app typeset]; intros H; find_clause.
Qed.

(** ** The other two routes, and the request *)


(** X13. The states listed for the page of [GET /] are exactly the values
    that [validate_state] can return, each listed once: what the page
    would offer is accepted as it stands, and nothing else is. *)
Theorem form_states_are_the_accepted_states :
  NoDup company_form_states
  /\ (forall c, In c company_form_states
                <-> exists v, validate_state v = inr c)
  /\ (forall c, In c company_form_states -> validate_state c = inr c).
Proof.
  assert (A : forall c, In c company_form_states -> validate_state c = inr c).
  { intros c H; change company_form_states with states in H.
    apply validate_state_inr; rewrite (upper_state c H); auto. }
  split; [|split; [split|exact A]].
  - unfold company_form_states; vm_compute; repeat constructor;
      intros H; repeat (destruct H as [H|H]; [discriminate H|]); exact H.
  - intros H; exists c; apply A; assumption.
  - intros [v H]; apply validate_state_inr in H; destruct H as [H ->].
    exact H.
Qed.

Lemma MultiDict_get_none (key : str) (m : MultiDict) :
  (forall v, ~ In (key, v) m) -> MultiDict_get key m = None.
Proof using.
  induction m as [|[k v] m IH]; intros H; [reflexivity|].
  cbn [MultiDict_get].
  destruct (str_eqb k key) eqn:E.
  - apply str_eqb_eq in E; subst k; destruct (H v); left; reflexivity.
  - apply IH; intros v' Hv'; apply (H v'); right; assumption.
Qed.

Lemma MultiDict_get_extra (key k u : str) (m : MultiDict) :
  (k = key -> exists v, In (key, v) m) ->
  MultiDict_get key (m ++ [(k, u)]) = MultiDict_get key m.
Proof using.
  induction m as [|[k' v'] m IH]; intros Hk; cbn [app MultiDict_get].
  - destruct (str_eqb k key) eqn:E; [|reflexivity].
    apply str_eqb_eq in E; destruct (Hk E) as [v []].
  - destruct (str_eqb k' key) eqn:E; [reflexivity|].
    apply IH; intros Ek; destruct (Hk Ek) as [v [Hv|Hv]]; [|eauto].
    injection Hv as -> ->; rewrite str_eqb_refl in E; discriminate E.
Qed.

Lemma missing_field_required (data : payload) (f : field) :
  raw_field data f = None ->
  exists e, CompanyFormation_init data = inl e /\ In (f, required) e.
Proof.
  destruct data as [rn rs rt ri].
  unfold CompanyFormation_init, str_field, literal_field, raw_field; fields.
  intros H; destruct f; subst;
    repeat match goal with
           | |- context [match ?o with Some _ => _ | None => _ end] =>
               is_var o; destruct o
           | |- context [validate_company_name ?v] =>
               destruct (validate_company_name v)
           | |- context [validate_state ?v] => destruct (validate_state v)
           | |- context [str_in ?v permitted_types] =>
               destruct (str_in v permitted_types)
           end;
    cbn [errors_of app]; (eexists; split; [reflexivity|]);
    cbn [In]; auto 6.
Qed.

(** X14. A form that does not hold one of the four keys is answered 400 with
    that field reported as required, and no template runs; the same for a
    JSON body whose key is missing or null. *)
Theorem missing_key_is_reported (r : request) (f : field) (w : world) :
  (if is_json r then raw_field (get_json r) f = None
   else forall v, ~ In (field_key f, v) (form r)) ->
  exists e, In (f, required) e
            /\ form_company_view r w = (jsonify_error (str_of e) 400, w).
Proof.
  intros H.
  assert (N : raw_field (request_data r) f = None).
  { unfold request_data; destruct (is_json r); [exact H|].
    destruct f; cbn [raw_field field_key] in *; fields;
      apply MultiDict_get_none; exact H. }
  destruct (missing_field_required _ _ N) as (e & E & Hin).
  exists e; split; [assumption|].
  unfold form_company_view, form_company; rewrite E; reflexivity.
Qed.

(** X15. Of a form only the first value of each of the four keys reaches the
    endpoint: fields of other names, and later values of a key, change
    nothing. *)
Theorem form_fields_beyond_the_four_are_ignored
  (r : request) (extra : str * str) (w : world) :
  is_json r = false ->
  (forall f, fst extra = field_key f -> exists v, In (field_key f, v) (form r)) ->
  form_company_view
    {| is_json := false; get_json := get_json r; form := form r ++ [extra] |} w
  = form_company_view r w.
Proof.
  intros J H.
  assert (G : forall key,
             (fst extra = key -> exists v, In (key, v) (form r)) ->
             MultiDict_get key (form r ++ [extra]) = MultiDict_get key (form r))
    by (intros key; destruct extra; apply MultiDict_get_extra).
  unfold form_company_view, request_data; cbn [is_json form]; rewrite J.
  rewrite !G; [reflexivity| | | |]; intros E.
  - apply (H f_incorporator_name E).
  - apply (H f_company_type E).
  - apply (H f_state_of_formation E).
  - apply (H f_company_name E).
Qed.

End App.

(** * The properties at concrete requests *)

Lemma company_name_refused_at_acme_bang :
  In 33 (lit "Acme!") /\ name_char 33 = false
  /\ validate_company_name (lit "Acme!") = inl company_name_message.
Proof.
  assert (H1 : In 33 (lit "Acme!")) by (vm_compute; tauto).
  assert (H2 : name_char 33 = false) by reflexivity.
  pose proof company_name_accepted_iff_in_class as (_ & _ & R & _).
  exact (conj H1 (conj H2 (R (lit "Acme!") 33 H1 H2))).
Defined.

Lemma state_accepted_at_mixed_case :
  In (lit "DE") states /\ spells (lit "dE") (lit "DE")
  /\ validate_state unconsulted (lit "dE") = inr (lit "DE").
Proof.
  assert (H1 : In (lit "DE") states) by (apply str_in_In; reflexivity).
  assert (H2 : spells (lit "dE") (lit "DE")).
  { constructor; [right; reflexivity|].
    constructor; [left; reflexivity|constructor]. }
  pose proof (state_accepted_iff_upper_in_states unconsulted)
    as (_ & _ & _ & _ & _ & _ & S).
  exact (conj H1 (conj H2 (S (lit "DE") (lit "dE") H1 H2))).
Defined.

Lemma validation_idempotent_at_acme :
  CompanyFormation_init unconsulted acme = inr acme_model
  /\ CompanyFormation_init unconsulted (as_payload acme_model) = inr acme_model.
Proof.
  split; [reflexivity|].
  apply (validation_idempotent unconsulted acme acme_model); reflexivity.
Defined.

Lemma refused_at_acme_bang :
  refused unconsulted acme_bang
  /\ exists e, e <> []
       /\ CompanyFormation_init unconsulted acme_bang = inl e
       /\ form_company unconsulted acme_bang (frozen third_of_november)
          = (jsonify_error (str_of e) 400, frozen third_of_november).
Proof.
  assert (R : refused unconsulted acme_bang).
  { do 4 right; left; exists (lit "Acme!"); split; reflexivity. }
  split; [exact R|].
  apply (refused_payload_gets_400 unconsulted acme_bang
           (frozen third_of_november) R).
Defined.

Lemma other_state_at_texas :
  CompanyFormation_init unconsulted acme_in_texas = inr acme_in_texas_model
  /\ state_of_formation acme_in_texas_model <> lit "DE"
  /\ state_of_formation acme_in_texas_model <> lit "CA"
  /\ form_company unconsulted acme_in_texas (frozen third_of_november)
     = (jsonify_error
          (message (lit "Only Delaware and California entities are supported at this time"))
          400, frozen third_of_november).
Proof.
  assert (H1 : state_of_formation acme_in_texas_model <> lit "DE")
    by discriminate.
  assert (H2 : state_of_formation acme_in_texas_model <> lit "CA")
    by discriminate.
  split; [reflexivity|].
  split; [exact H1|].
  split; [exact H2|].
  apply (other_state_gets_400 unconsulted acme_in_texas acme_in_texas_model
           (frozen third_of_november) eq_refl H1 H2).
Defined.

Lemma other_type_at_partnership :
  raw_state_of_formation acme_partnership = Some (lit "DE")
  /\ raw_company_type acme_partnership = Some (lit "partnership")
  /\ ~ In (lit "partnership") permitted_types
  /\ exists e,
       In (f_company_type, not_permitted [lit "corporation"; lit "LLC"]) e
       /\ form_company unconsulted acme_partnership (frozen third_of_november)
          = (jsonify_error (str_of e) 400, frozen third_of_november).
Proof.
  assert (H : ~ In (lit "partnership") permitted_types).
  { intros [H|[H|[]]]; discriminate H. }
  split; [reflexivity|].
  split; [reflexivity|].
  split; [exact H|].
  apply (other_type_gets_400 unconsulted acme_partnership (lit "partnership")
           (frozen third_of_november) eq_refl eq_refl H).
Defined.

Lemma unsupported_type_branch_unreachable_at_acme :
  CompanyFormation_init unconsulted acme = inr acme_model
  /\ (company_type acme_model = lit "corporation"
      \/ company_type acme_model = lit "LLC")
  /\ fst (form_company unconsulted acme (frozen third_of_november))
     <> jsonify_error (message (lit "Unsupported company type")) 400.
Proof.
  split; [reflexivity|].
  apply (unsupported_type_branch_unreachable unconsulted acme acme_model
           (frozen third_of_november) eq_refl).
Defined.


Lemma delaware_artifacts_agree_at_standstill :
  readings_show (frozen third_of_november) third_of_november
  /\ one_date generate_delaware_articles acme_model (frozen third_of_november)
  /\ contains
       (snd (fst (generate_delaware_articles acme_model (frozen third_of_november))))
       (lit "03 November, 2026") = true.
Proof.
  assert (R : readings_show (frozen third_of_november) third_of_november).
  { repeat split. }
  pose proof delaware_artifacts_agree as (_ & _ & A & _).
  destruct (A acme_model (frozen third_of_november) third_of_november R)
    as (H1 & _ & _ & H2).
  exact (conj R (conj H1 H2)).
Defined.

(** * The further properties at concrete requests *)

Lemma every_refusal_reported_at_acme_bang :
  CompanyFormation_init unconsulted acme_bang
  = inl [(f_company_name, value_error company_name_message)]
  /\ (forall f, In f [f_company_name] <-> field_refused unconsulted acme_bang f)
  /\ (forall f, In (f, required)
                  [(f_company_name, value_error company_name_message)]
                <-> raw_field acme_bang f = None)
  /\ StronglySorted lt [0%nat].
Proof.
  split; [reflexivity|].
  apply (every_refusal_reported unconsulted acme_bang
           [(f_company_name, value_error company_name_message)] eq_refl).
Defined.

Lemma accepted_iff_not_refused_at_acme :
  CompanyFormation_init unconsulted acme = inr acme_model
  /\ ~ refused unconsulted acme.
Proof.
  split; [reflexivity|].
  apply (proj1 (proj1 (accepted_iff_not_refused unconsulted acme))).
  exists acme_model; reflexivity.
Defined.

Lemma accepted_state_is_canonical_at_lower_case :
  Forall (fun c => c < 128) (lit "de")
  /\ validate_state unconsulted (lit "de") = inr (lit "DE")
  /\ In (lit "DE") states /\ spells (lit "de") (lit "DE").
Proof.
  assert (A : Forall (fun c => c < 128) (lit "de"))
    by (repeat constructor).
  assert (E : validate_state unconsulted (lit "de") = inr (lit "DE"))
    by reflexivity.
  split; [exact A|]; split; [exact E|].
  apply (proj1 (proj2 (accepted_state_is_canonical unconsulted
                         (lit "de") (lit "DE")) A) E).
Defined.

Lemma state_of_one_code_point_at_ligature :
  128 <= 64258
  /\ ligature_table 64258 = lit "FL"
  /\ In (lit "FL") states
  /\ validate_state ligature_table [64258] = inr (lit "FL").
Proof.
  assert (H1 : 128 <= 64258) by discriminate.
  assert (H2 : In (lit "FL") states) by (apply str_in_In; reflexivity).
  split; [exact H1|]; split; [reflexivity|]; split; [exact H2|].
  apply (state_of_one_code_point ligature_table 64258 (lit "FL") H1 eq_refl H2).
Defined.

Lemma blank_company_name_accepted_at_one_blank :
  lit " " <> []
  /\ Forall (fun c => is_space c = true) (lit " ")
  /\ validate_company_name (lit " ") = inr (lit " ").
Proof.
  assert (H1 : lit " " <> []) by discriminate.
  assert (H2 : Forall (fun c => is_space c = true) (lit " "))
    by (repeat constructor).
  exact (conj H1 (conj H2 (blank_company_name_accepted (lit " ") H1 H2))).
Defined.

Lemma state_spelling_irrelevant_at_acme :
  In (lit "DE") states
  /\ spells (lit "dE") (lit "DE")
  /\ form_company unconsulted (with_state acme (lit "dE"))
       (frozen third_of_november)
     = form_company unconsulted (with_state acme (lit "DE"))
         (frozen third_of_november).
Proof.
  assert (H1 : In (lit "DE") states) by (apply str_in_In; reflexivity).
  assert (H2 : spells (lit "dE") (lit "DE")).
  { constructor; [right; reflexivity|].
    constructor; [left; reflexivity|constructor]. }
  exact (conj H1 (conj H2
           (state_spelling_irrelevant unconsulted acme (lit "DE") (lit "dE")
              (frozen third_of_november) H1 H2))).
Defined.

Lemma archive_names_are_flat_at_acme :
  exists (body : archive) (mimetype download_name : str) (w' : world),
    form_company unconsulted acme (frozen third_of_november)
    = (send_file body mimetype download_name, w')
    /\ List.length body = 2%nat
    /\ NoDup (List.map fst body)
    /\ forall name, In name (download_name :: List.map fst body) ->
         ~ In 47 name /\ ~ In 92 name /\ ~ In 0 name.
Proof.
  eexists _, _, _, _; split; [reflexivity|].
  eapply (archive_names_are_flat unconsulted acme (frozen third_of_november));
    reflexivity.
Defined.

Lemma delaware_text_has_the_clauses_at_title :
  let out := fst (generate_delaware_articles acme_model
                    (frozen third_of_november)) in
  In (Some (lit "Helvetica-Bold", 16%Z), (300, 750)%Z,
      lit "CERTIFICATE OF INCORPORATION")
     (typeset None (fst out))
  /\ (750 = 180 \/ 750 = 160
      \/ contains (snd out) (lit "CERTIFICATE OF INCORPORATION") = true)%Z.
Proof.
  cbv zeta.
  assert (H : In (Some (lit "Helvetica-Bold", 16%Z), (300, 750)%Z,
                  lit "CERTIFICATE OF INCORPORATION")
                (typeset None
                   (fst (fst (generate_delaware_articles acme_model
                                (frozen third_of_november))))))
    by (left; reflexivity).
  split; [exact H|].
  exact (proj1 (delaware_text_has_the_clauses acme_model
                  (frozen third_of_november)) _ _ _ _ H).
Defined.

Lemma form_states_are_the_accepted_states_at_texas :
  In (lit "TX") company_form_states
  /\ validate_state unconsulted (lit "TX") = inr (lit "TX").
Proof.
  assert (H : In (lit "TX") company_form_states)
    by (apply str_in_In; reflexivity).
  split; [exact H|].
  exact (proj2 (proj2 (form_states_are_the_accepted_states unconsulted)) _ H).
Defined.

Lemma missing_key_is_reported_at_acme_form :
  (forall v, ~ In (lit "incorporator_name", v)
               (form acme_form_request_without_incorporator))
  /\ exists e,
       In (f_incorporator_name, required) e
       /\ form_company_view unconsulted acme_form_request_without_incorporator
            (frozen third_of_november)
          = (jsonify_error (str_of e) 400, frozen third_of_november).
Proof.
  assert (H : forall v, ~ In (lit "incorporator_name", v)
                          (form acme_form_request_without_incorporator)).
  { intros v H; vm_compute in H.
    destruct H as [H|[H|[H|[]]]]; discriminate H. }
  split; [exact H|].
  exact (missing_key_is_reported unconsulted
           acme_form_request_without_incorporator f_incorporator_name
           (frozen third_of_november) H).
Defined.

Lemma later_value_is_ignored_at_acme_form :
  is_json acme_form_request = false
  /\ (forall f, lit "company_name" = field_key f ->
                exists v, In (field_key f, v) acme_form)
  /\ form_company_view unconsulted
       {| is_json := false; get_json := get_json acme_form_request;
          form := acme_form ++ [(lit "company_name", lit "Other, Inc.")] |}
       (frozen third_of_november)
     = form_company_view unconsulted acme_form_request
         (frozen third_of_november).
Proof.
  assert (H : forall f, lit "company_name" = field_key f ->
                        exists v, In (field_key f, v) acme_form).
  { intros f E; destruct f; try discriminate E.
    exists (lit "Acme Corp, Inc."); left; reflexivity. }
  split; [reflexivity|]; split; [exact H|].
  exact (form_fields_beyond_the_four_are_ignored unconsulted acme_form_request
           (lit "company_name", lit "Other, Inc.")
           (frozen third_of_november) eq_refl H).
Defined.
